(** * Supplychain-AI: the reorder-recommendation engine

    A shallow embedding of [compute_recommendations] and [_ceil_to_moq] from
    [src/backend/main.py] (the variant behind bearer-token authentication) and
    from [src/backend/app/main.py] (the open variant), with the statements of
    the specification that concern them.

    Conventions of the embedding.
    - A Python [float] is a [pyfloat]: NaN, the two infinities, or a finite
      value held as an exact rational.  Special values follow IEEE 754 and
      Python; binary64 rounding and overflow of finite arithmetic are not
      modelled.
    - A pandas [Timestamp] is an integer number of nanoseconds since the
      epoch, without the bounds of pandas' own range; a [datetime.date] is
      its proleptic Gregorian ordinal, with the bounds of [datetime].
    - A SKU is text, or missing; [groupby] lists the text keys in the order
      of their code points.
    - The table is given by what pandas' coercing parsers
      ([pd.to_datetime(errors="coerce", dayfirst=True)] and
      [pd.to_numeric(errors="coerce")]) make of each cell: a date cell is a
      timestamp or NaT, a numeric cell is a [pyfloat] (NaN when missing or
      unparseable).  The parsers themselves are library code.
    - A Python exception is a value of [exn]; code that can raise returns a
      [result]. *)

From Stdlib Require Import ZArith QArith Qround Qabs Qminmax List String Ascii Bool Lia.
From Stdlib Require Import Sorting.Sorted Sorting.Permutation DecimalString.
From Stdlib Require OrderedTypeEx.
From Stdlib Require Import Lqa.
Import ListNotations.

Local Open Scope Z_scope.

(** ** Python exceptions and results *)

Inductive exn : Type :=
| ValueError_missing_columns (missing : list string)
    (* raise ValueError(f"Missing required columns: {missing}") *)
| ValueError_nan_to_int      (* int(float("nan")), math.ceil(float("nan")) *)
| OverflowError_inf_to_int   (* int(float("inf")), math.ceil(float("inf")) *)
| OverflowError_date         (* timedelta(days=...) or date + timedelta out of range *)
| IndexError_iloc.           (* g.iloc[-1] on an empty frame *)

Inductive result (A : Type) : Type :=
| Ok (a : A)
| Raise (e : exn).
Arguments Ok {A} a.
Arguments Raise {A} e.

Definition bind {A B : Type} (m : result A) (k : A -> result B) : result B :=
  match m with
  | Ok a => k a
  | Raise e => Raise e
  end.

Notation "x <- m ;; k" := (bind m (fun x => k))
  (at level 61, m at next level, right associativity).

(** A [for] loop that appends one value per element: the first exception
    aborts the loop. *)
Fixpoint for_each {A B : Type} (body : A -> result B) (l : list A)
  : result (list B) :=
  match l with
  | [] => Ok []
  | a :: l' =>
      b <- body a ;;
      bs <- for_each body l' ;;
      Ok (b :: bs)
  end.

(** ** Floats *)

Inductive pyfloat : Type :=
| NaN
| NegInf
| Finite (q : Q)
| PosInf.

Module Float.

Definition Qltb (a b : Q) : bool := negb (Qle_bool b a).

Definition of_int (z : Z) : pyfloat := Finite (inject_Z z).

Definition isnan (x : pyfloat) : bool :=
  match x with NaN => true | _ => false end.

(** [pd.notna] on a float. *)
Definition notna (x : pyfloat) : bool := negb (isnan x).

(** [math.isfinite]. *)
Definition isfinite (x : pyfloat) : bool :=
  match x with Finite _ => true | _ => false end.

Definition neg (x : pyfloat) : pyfloat :=
  match x with
  | NaN => NaN
  | NegInf => PosInf
  | Finite q => Finite (Qred (- q))
  | PosInf => NegInf
  end.

Definition add (x y : pyfloat) : pyfloat :=
  match x, y with
  | NaN, _ | _, NaN => NaN
  | PosInf, NegInf | NegInf, PosInf => NaN
  | PosInf, _ | _, PosInf => PosInf
  | NegInf, _ | _, NegInf => NegInf
  | Finite a, Finite b => Finite (Qred (a + b))
  end.

Definition sub (x y : pyfloat) : pyfloat := add x (neg y).

(** Sign of a float that is not NaN: [Lt] negative, [Eq] zero, [Gt]
    positive. *)
Definition sign (x : pyfloat) : comparison :=
  match x with
  | NaN => Eq
  | NegInf => Lt
  | Finite q => Qcompare q 0
  | PosInf => Gt
  end.

Definition signed_inf (s : comparison) : pyfloat :=
  match s with Lt => NegInf | Eq => NaN | Gt => PosInf end.

Definition sign_mul (s t : comparison) : comparison :=
  match s, t with
  | Eq, _ | _, Eq => Eq
  | Lt, Lt | Gt, Gt => Gt
  | Lt, Gt | Gt, Lt => Lt
  end.

Definition mul (x y : pyfloat) : pyfloat :=
  match x, y with
  | NaN, _ | _, NaN => NaN
  | Finite a, Finite b => Finite (Qred (a * b))
  | _, _ => signed_inf (sign_mul (sign x) (sign y))   (* inf * 0 = nan *)
  end.

(** IEEE division.  Every Python-level division of the source has a
    divisor already tested positive, so [ZeroDivisionError] cannot arise
    there; the zero-divisor rows are numpy's. *)
Definition div (x y : pyfloat) : pyfloat :=
  match x, y with
  | NaN, _ | _, NaN => NaN
  | Finite a, Finite b =>
      if Qeq_bool b 0 then signed_inf (Qcompare a 0)
      else Finite (Qred (a / b))
  | Finite _, _ => Finite 0
  | _, Finite b =>
      signed_inf (sign_mul (sign x) (match Qcompare b 0 with Lt => Lt | _ => Gt end))
  | _, _ => NaN                                        (* inf / inf *)
  end.

(** Comparisons are false whenever an operand is NaN. *)
Definition le (x y : pyfloat) : bool :=
  match x, y with
  | NaN, _ | _, NaN => false
  | NegInf, _ => true
  | _, PosInf => true
  | Finite a, Finite b => Qle_bool a b
  | _, _ => false
  end.

Definition lt (x y : pyfloat) : bool :=
  match x, y with
  | NaN, _ | _, NaN => false
  | NegInf, NegInf | PosInf, PosInf => false
  | NegInf, _ => true
  | _, PosInf => true
  | Finite a, Finite b => Qltb a b
  | _, _ => false
  end.

Definition eqb (x y : pyfloat) : bool :=
  match x, y with
  | NegInf, NegInf | PosInf, PosInf => true
  | Finite a, Finite b => Qeq_bool a b
  | _, _ => false
  end.

(** [bool(x)]: zero is the only falsy float; NaN is truthy. *)
Definition truthy (x : pyfloat) : bool :=
  match x with
  | Finite q => negb (Qeq_bool q 0)
  | _ => true
  end.

(** [x or 0]. *)
Definition or0 (x : pyfloat) : pyfloat :=
  if truthy x then x else Finite 0.

(** The builtin [max(a, b)] on two arguments: [b] when [b > a], else [a]. *)
Definition max (a b : pyfloat) : pyfloat :=
  if lt a b then b else a.

Definition Qtrunc (q : Q) : Z :=
  if Qle_bool 0 q then Qfloor q else Qceiling q.

(** [int(x)]: truncation toward zero. *)
Definition to_int (x : pyfloat) : result Z :=
  match x with
  | NaN => Raise ValueError_nan_to_int
  | Finite q => Ok (Qtrunc q)
  | _ => Raise OverflowError_inf_to_int
  end.

(** [math.ceil] and [math.floor]. *)
Definition ceil (x : pyfloat) : result Z :=
  match x with
  | NaN => Raise ValueError_nan_to_int
  | Finite q => Ok (Qceiling q)
  | _ => Raise OverflowError_inf_to_int
  end.

Definition floor (x : pyfloat) : result Z :=
  match x with
  | NaN => Raise ValueError_nan_to_int
  | Finite q => Ok (Qfloor q)
  | _ => Raise OverflowError_inf_to_int
  end.

(** [abs]. *)
Definition abs (x : pyfloat) : pyfloat :=
  match x with
  | NaN => NaN
  | Finite q => Finite (Qabs q)
  | _ => PosInf
  end.

End Float.

(** ** Text formatting *)

Module Format.

(** [str(n)] of an [int]. *)
Definition of_int (z : Z) : string := NilZero.string_of_int (Z.to_int z).

(** Round to the nearest integer, ties to even. *)
Definition round_half_even (q : Q) : Z :=
  let f := Qfloor q in
  match Qcompare (q - inject_Z f) (1 # 2) with
  | Lt => f
  | Eq => if Z.even f then f else f + 1
  | Gt => f + 1
  end.

(** The [d] decimal digits of [m mod 10^d], zero padded. *)
Definition fraction_digits (d : nat) (m : Z) : string :=
  match of_int (10 ^ Z.of_nat d + m mod 10 ^ Z.of_nat d) with
  | String _ s => s
  | EmptyString => EmptyString
  end.

(** [f"{x:.df}"]. *)
Definition fixed (d : nat) (x : pyfloat) : string :=
  match x with
  | NaN => "nan"
  | NegInf => "-inf"
  | PosInf => "inf"
  | Finite q =>
      let m := round_half_even (Qabs q * inject_Z (10 ^ Z.of_nat d)) in
      ((if Float.Qltb q 0 then "-" else "")
         ++ of_int (m / 10 ^ Z.of_nat d)
         ++ (match d with O => "" | _ => "." ++ fraction_digits d m end))%string
  end.

End Format.

(** ** The data model *)

(** One row of the table.  [D] is the type of the [Date] cell: [option Z]
    (a timestamp or NaT) as parsed, [Z] once the rows without a date are
    dropped.  [SKU] is [None] for a missing key.  The cell of a column that
    the table does not have is never read. *)
Record Row {D : Type} : Type := mkRow {
  SKU : option string;
  Date : D;
  UnitsSold : pyfloat;
  OnHand : pyfloat;
  LeadTimeDays : pyfloat;
  MOQ : pyfloat;
  Cost : pyfloat
}.
Arguments Row D : clear implicits.
Arguments mkRow {D} SKU Date UnitsSold OnHand LeadTimeDays MOQ Cost.

Record DataFrame : Type := mkDataFrame {
  columns : list string;
  rows : list (Row (option Z))
}.

Inductive Status : Type := RED | AMBER | GREEN.

(** [class Recommendation(BaseModel)], the same in both files.  [reorder_by]
    holds the date whose [isoformat()] the source stores. *)
Record Recommendation : Type := mkRecommendation {
  sku : string;
  current_stock : pyfloat;
  avg_daily_sales : pyfloat;
  forecast_30d : pyfloat;
  reorder_qty : pyfloat;
  reorder_by : option Z;
  lead_time_days : Z;
  moq : option Z;
  unit_cost : option pyfloat;
  status : Status;
  reason : string
}.

(** ** The pandas and datetime operations the engine calls *)

Module Pandas.

Definition ns_per_day : Z := 86400000000000.

(** [pd.Timedelta(days=n)]. *)
Definition Timedelta_days (n : Z) : Z := n * ns_per_day.

(** [.dt.date]: the calendar day of a timestamp. *)
Definition dt_date (t : Z) : Z := t / ns_per_day.

(** [c in df.columns]. *)
Definition has_column (cols : list string) (c : string) : bool :=
  existsb (String.eqb c) cols.

(** [df.dropna(subset=["Date"])]. *)
Fixpoint dropna_Date (rs : list (Row (option Z))) : list (Row Z) :=
  match rs with
  | [] => []
  | r :: rs' =>
      match Date r with
      | Some t =>
          mkRow (SKU r) t (UnitsSold r) (OnHand r) (LeadTimeDays r) (MOQ r) (Cost r)
            :: dropna_Date rs'
      | None => dropna_Date rs'
      end
  end.

(** Sorted distinct keys, as [groupby] lists its groups. *)
Fixpoint insert_key {K : Type} (cmp : K -> K -> comparison) (k : K) (l : list K)
  : list K :=
  match l with
  | [] => [k]
  | x :: l' =>
      match cmp k x with
      | Lt => k :: l
      | Eq => l
      | Gt => x :: insert_key cmp k l'
      end
  end.

Definition unique_sorted {K : Type} (cmp : K -> K -> comparison) (ks : list K)
  : list K :=
  fold_right (insert_key cmp) [] ks.

Definition SKU_is (k : string) (r : Row Z) : bool :=
  match SKU r with
  | Some s => String.eqb s k
  | None => false
  end.

Fixpoint present_keys (rs : list (Row Z)) : list string :=
  match rs with
  | [] => []
  | r :: rs' =>
      match SKU r with
      | Some s => s :: present_keys rs'
      | None => present_keys rs'
      end
  end.

(** [df.groupby("SKU")]: one group per distinct key that is not missing, in
    key order; a group keeps its rows in table order. *)
Definition groupby_SKU (rs : list (Row Z)) : list (string * list (Row Z)) :=
  map (fun k => (k, filter (SKU_is k) rs))
      (unique_sorted String.compare (present_keys rs)).

(** [g.sort_values("Date")], ascending.  pandas leaves the relative order of
    rows with equal timestamps to the sorting routine; the embedding keeps
    them in table order. *)
Fixpoint insert_by_Date (r : Row Z) (l : list (Row Z)) : list (Row Z) :=
  match l with
  | [] => [r]
  | x :: l' =>
      if Date x <? Date r then x :: insert_by_Date r l' else r :: l
  end.

Definition sort_values_Date (g : list (Row Z)) : list (Row Z) :=
  fold_right insert_by_Date [] g.

(** [g.iloc[-1]]. *)
Definition iloc_last (g : list (Row Z)) : result (Row Z) :=
  match rev g with
  | r :: _ => Ok r
  | [] => Raise IndexError_iloc
  end.

(** [last.get(name, default)] on a numeric column; [None] is Python's
    [None]. *)
Definition numeric_cell (r : Row Z) (name : string) : option pyfloat :=
  if String.eqb name "UnitsSold" then Some (UnitsSold r)
  else if String.eqb name "OnHand" then Some (OnHand r)
  else if String.eqb name "LeadTimeDays" then Some (LeadTimeDays r)
  else if String.eqb name "MOQ" then Some (MOQ r)
  else if String.eqb name "Cost" then Some (Cost r)
  else None.

Definition get (cols : list string) (r : Row Z) (name : string)
           (default : option pyfloat) : option pyfloat :=
  if has_column cols name then
    match numeric_cell r name with
    | Some v => Some v
    | None => default
    end
  else default.

(** [v or 0] where [v] is a float or [None]. *)
Definition or0 (v : option pyfloat) : pyfloat :=
  match v with
  | Some x => Float.or0 x
  | None => Finite 0
  end.

(** [pd.notna(v) and v is not None]. *)
Definition notna_not_None (v : option pyfloat) : bool :=
  match v with
  | Some x => Float.notna x
  | None => false
  end.

(** [g["Date"].max()]: NaT ([None]) on an empty frame. *)
Definition max_Date (g : list (Row Z)) : option Z :=
  match g with
  | [] => None
  | r :: g' => Some (fold_left Z.max (map Date g') (Date r))
  end.

(** [t - pd.Timedelta(days=n)]; NaT stays NaT. *)
Definition minus_days (t : option Z) (n : Z) : option Z :=
  option_map (fun m => m - Timedelta_days n) t.

(** [g["Date"] >= cutoff] and [g["Date"] < cutoff], false against NaT. *)
Definition Date_ge (cutoff : option Z) (r : Row Z) : bool :=
  match cutoff with
  | Some c => c <=? Date r
  | None => false
  end.

Definition Date_lt (cutoff : option Z) (r : Row Z) : bool :=
  match cutoff with
  | Some c => Date r <? c
  | None => false
  end.

(** [Series.sum()] and [Series.mean()]: NaN entries are skipped; the sum of
    nothing is 0, the mean of nothing is NaN. *)
Definition series_sum (xs : list pyfloat) : pyfloat :=
  fold_left Float.add (filter Float.notna xs) (Finite 0).

Definition series_mean (xs : list pyfloat) : pyfloat :=
  let ys := filter Float.notna xs in
  match ys with
  | [] => NaN
  | _ => Float.div (fold_left Float.add ys (Finite 0))
                   (Float.of_int (Z.of_nat (List.length ys)))
  end.

(** [recent.groupby(recent["Date"].dt.date)["UnitsSold"].sum().reset_index()]:
    one line per distinct calendar day, with that day's total. *)
Definition daily_UnitsSold (recent : list (Row Z)) : list (Z * pyfloat) :=
  map (fun d =>
         (d, series_sum (map UnitsSold
                             (filter (fun r => dt_date (Date r) =? d) recent))))
      (unique_sorted Z.compare (map (fun r => dt_date (Date r)) recent)).

End Pandas.

Module Datetime.

(** [date.max.toordinal()] and the largest [timedelta] in days. *)
Definition date_max : Z := 3652059.
Definition timedelta_max_days : Z := 999999999.

(** [today + timedelta(days=n)]. *)
Definition add_days (today n : Z) : result Z :=
  if (Z.abs n >? timedelta_max_days) then Raise OverflowError_date
  else if (today + n >? date_max) || (today + n <? 1) then Raise OverflowError_date
  else Ok (today + n).

End Datetime.

(** ** [src/backend/main.py] *)

Module Main.

Definition REQUIRED_COLS : list string :=
  ["SKU"; "Date"; "UnitsSold"; "OnHand"; "LeadTimeDays"]%string.

(** What a call can reach besides its arguments: the process clock read by
    [date.today()], and the module's globals. *)
Record Process : Type := mkProcess {
  clock_today : Z;
  CLERK_JWKS_URL : string;
  CLERK_ISSUER : string;
  _jwks_client_cache : option string
}.

Definition _ceil_to_moq (qty : pyfloat) (moq : option Z) : result pyfloat :=
  match moq with
  | None => Ok (Float.max (Finite 0) qty)
  | Some m =>
      if m <=? 0 then Ok (Float.max (Finite 0) qty)
      else if Float.le qty (Finite 0) then Ok (Finite 0)
      else
        c <- Float.ceil (Float.div qty (Float.of_int m)) ;;
        Ok (Float.of_int (c * m))
  end.

(** [recent = g[g["Date"] >= recent_cutoff]]. *)
Definition recent_window (g : list (Row Z)) : list (Row Z) :=
  let recent_cutoff := Pandas.minus_days (Pandas.max_Date g) 28 in
  filter (Pandas.Date_ge recent_cutoff) g.

(** [if recent.empty: recent = g]. *)
Definition recent_or_all (g : list (Row Z)) : list (Row Z) :=
  match recent_window g with
  | [] => g
  | recent => recent
  end.

Definition avg_daily_of (g : list (Row Z)) : pyfloat :=
  let daily := Pandas.daily_UnitsSold (recent_or_all g) in
  match daily with
  | [] => Finite 0
  | _ => Pandas.series_mean (map snd daily)
  end.

Definition days_until_stockout_of (on_hand avg_daily : pyfloat) : pyfloat :=
  if Float.lt (Finite 0) avg_daily then Float.div on_hand avg_daily else PosInf.

Definition reorder_by_of (today : Z) (days_until_stockout : pyfloat) (lead_time : Z)
  : result (option Z) :=
  if Float.isfinite days_until_stockout then
    f <- Float.floor (Float.sub days_until_stockout (Float.of_int lead_time)) ;;
    let days_to_order := Z.max 0 f in
    d <- Datetime.add_days today days_to_order ;;
    Ok (Some d)
  else Ok None.

Definition trend_note_of (g : list (Row Z)) : string :=
  let recent14 := filter (Pandas.Date_ge (Pandas.minus_days (Pandas.max_Date g) 14)) g in
  let prev14 :=
    filter (fun r => Pandas.Date_lt (Pandas.minus_days (Pandas.max_Date g) 14) r
                     && Pandas.Date_ge (Pandas.minus_days (Pandas.max_Date g) 28) r) g in
  match recent14, prev14 with
  | _ :: _, _ :: _ =>
      let r := Pandas.series_mean (map UnitsSold recent14) in
      let p := Pandas.series_mean (map UnitsSold prev14) in
      if Float.lt (Finite 0) p then
        let pct := Float.mul (Float.div (Float.sub r p) p) (Finite 100) in
        if Float.le (Finite 10) (Float.abs pct) then
          (" Demand changed ~" ++ Format.fixed 0 pct ++ "% vs prior 2 weeks.")%string
        else ""%string
      else ""%string
  | _, _ => ""%string
  end.

Definition status_and_reason (g : list (Row Z)) (horizon_days lead_time : Z)
           (avg_daily forecast_30d reorder_qty days_until_stockout : pyfloat)
  : Status * string :=
  if Float.eqb avg_daily (Finite 0) then
    (GREEN, "No recent sales detected; no reorder recommendation."%string)
  else
    let status :=
      if Float.le days_until_stockout (Float.of_int lead_time) then RED
      else if Float.le days_until_stockout (Float.of_int (lead_time + 7)) then AMBER
      else GREEN in
    let trend_note := trend_note_of g in
    (status,
     ("Avg daily sales " ++ Format.fixed 1 avg_daily
        ++ ". Lead time " ++ Format.of_int lead_time ++ "d. "
        ++ "Forecast next " ++ Format.of_int horizon_days ++ "d "
        ++ Format.fixed 0 forecast_30d ++ ". "
        ++ "Recommend reorder " ++ Format.fixed 0 reorder_qty
        ++ " to cover horizon + lead time."
        ++ trend_note)%string).

(** [int(moq_val) if pd.notna(moq_val) and moq_val is not None else None]. *)
Definition moq_of (moq_val : option pyfloat) : result (option Z) :=
  match moq_val with
  | Some v =>
      if Float.notna v then m <- Float.to_int v ;; Ok (Some m) else Ok None
  | None => Ok None
  end.

(** The body of [for sku, g in df.groupby("SKU")]. *)
Definition loop_body (today : Z) (cols : list string) (horizon_days : Z)
           (sku : string) (g0 : list (Row Z)) : result Recommendation :=
  let g := Pandas.sort_values_Date g0 in
  last <- Pandas.iloc_last g ;;
  let on_hand := Pandas.or0 (Pandas.get cols last "OnHand" (Some (Finite 0))) in
  lead_time <-
    Float.to_int (Pandas.or0 (Pandas.get cols last "LeadTimeDays" (Some (Finite 0)))) ;;
  let moq_val := Pandas.get cols last "MOQ" None in
  moq <- moq_of moq_val ;;
  let cost_val := Pandas.get cols last "Cost" None in
  let unit_cost := if Pandas.notna_not_None cost_val then cost_val else None in
  let avg_daily := avg_daily_of g in
  let forecast_30d := Float.mul avg_daily (Float.of_int horizon_days) in
  let target_stock :=
    Float.mul avg_daily (Float.of_int (horizon_days + Z.max lead_time 0)) in
  let reorder_qty_raw := Float.max (Finite 0) (Float.sub target_stock on_hand) in
  reorder_qty <- _ceil_to_moq reorder_qty_raw moq ;;
  let days_until_stockout := days_until_stockout_of on_hand avg_daily in
  reorder_by <- reorder_by_of today days_until_stockout lead_time ;;
  let '(status, reason) :=
    status_and_reason g horizon_days lead_time avg_daily forecast_30d reorder_qty
                      days_until_stockout in
  Ok (mkRecommendation sku on_hand avg_daily forecast_30d reorder_qty reorder_by
                       lead_time moq unit_cost status reason).

(** [order = {"RED": 0, "AMBER": 1, "GREEN": 2}]. *)
Definition order (s : Status) : Z :=
  match s with RED => 0 | AMBER => 1 | GREEN => 2 end.

(** [key=lambda r: (order.get(r.status, 9), -r.reorder_qty)]. *)
Definition sort_key (r : Recommendation) : Z * pyfloat :=
  (order (status r), Float.neg (reorder_qty r)).

(** [a < b] on two such tuples. *)
Definition key_lt (a b : Z * pyfloat) : bool :=
  if fst a =? fst b then
    if Float.eqb (snd a) (snd b) then false else Float.lt (snd a) (snd b)
  else fst a <? fst b.

(** [recs.sort(key=...)]: a stable sort. *)
Fixpoint insert_rec (r : Recommendation) (l : list Recommendation)
  : list Recommendation :=
  match l with
  | [] => [r]
  | x :: l' =>
      if key_lt (sort_key x) (sort_key r) then x :: insert_rec r l' else r :: l
  end.

Definition sort_recs (recs : list Recommendation) : list Recommendation :=
  fold_right insert_rec [] recs.

Definition missing_columns (df : DataFrame) : list string :=
  filter (fun c => negb (Pandas.has_column (columns df) c)) REQUIRED_COLS.

Definition compute_recommendations (env : Process) (df : DataFrame)
           (horizon_days : Z) : result (list Recommendation) :=
  let missing := missing_columns df in
  match missing with
  | _ :: _ => Raise (ValueError_missing_columns missing)
  | [] =>
      let df' := Pandas.dropna_Date (rows df) in
      let today := clock_today env in
      recs <- for_each (fun kg => loop_body today (columns df) horizon_days
                                            (fst kg) (snd kg))
                       (Pandas.groupby_SKU df') ;;
      Ok (sort_recs recs)
  end.

End Main.

(** ** [src/backend/app/main.py]

    The open variant has no globals besides [REQUIRED_COLS]; [today] is the
    value of [date.today()].  The function is transcribed here as the one
    block it is in the file. *)

Module AppMain.

Definition REQUIRED_COLS : list string :=
  ["SKU"; "Date"; "UnitsSold"; "OnHand"; "LeadTimeDays"]%string.

(** The last [None] branch is never taken: the first test has returned. *)
Definition _ceil_to_moq (qty : pyfloat) (moq : option Z) : result pyfloat :=
  if match moq with None => true | Some m => m <=? 0 end then
    Ok (Float.max (Finite 0) qty)
  else if Float.le qty (Finite 0) then Ok (Finite 0)
  else
    match moq with
    | Some m =>
        c <- Float.ceil (Float.div qty (Float.of_int m)) ;;
        Ok (Float.of_int (c * m))
    | None => Ok (Float.max (Finite 0) qty)
    end.

Definition order (s : Status) : Z :=
  match s with RED => 0 | AMBER => 1 | GREEN => 2 end.

Fixpoint sort_by_key (recs : list Recommendation) : list Recommendation :=
  let key r := (order (status r), Float.neg (reorder_qty r)) in
  let lt (a b : Z * pyfloat) :=
    if fst a =? fst b then
      if Float.eqb (snd a) (snd b) then false else Float.lt (snd a) (snd b)
    else fst a <? fst b in
  let fix ins r l :=
    match l with
    | [] => [r]
    | x :: l' => if lt (key x) (key r) then x :: ins r l' else r :: l
    end in
  match recs with
  | [] => []
  | r :: recs' => ins r (sort_by_key recs')
  end.

Definition compute_recommendations (today : Z) (df : DataFrame) (horizon_days : Z)
  : result (list Recommendation) :=
  let missing :=
    filter (fun c => negb (Pandas.has_column (columns df) c)) REQUIRED_COLS in
  if negb (Nat.eqb (List.length missing) 0) then
    Raise (ValueError_missing_columns missing)
  else
    let cols := columns df in
    let df' := Pandas.dropna_Date (rows df) in
    recs <-
      for_each
        (fun kg : string * list (Row Z) =>
           let sku := fst kg in
           let g := Pandas.sort_values_Date (snd kg) in
           last <- Pandas.iloc_last g ;;
           let on_hand :=
             Pandas.or0 (Pandas.get cols last "OnHand" (Some (Finite 0))) in
           lead_time <-
             Float.to_int
               (Pandas.or0 (Pandas.get cols last "LeadTimeDays" (Some (Finite 0)))) ;;
           let moq_val := Pandas.get cols last "MOQ" None in
           moq <- (if Pandas.notna_not_None moq_val then
                     match moq_val with
                     | Some v => m <- Float.to_int v ;; Ok (Some m)
                     | None => Ok None
                     end
                   else Ok None) ;;
           let cost_val := Pandas.get cols last "Cost" None in
           let unit_cost :=
             if Pandas.notna_not_None cost_val then cost_val else None in
           let recent_cutoff := Pandas.minus_days (Pandas.max_Date g) 28 in
           let recent := filter (Pandas.Date_ge recent_cutoff) g in
           let recent := match recent with [] => g | _ => recent end in
           let daily := Pandas.daily_UnitsSold recent in
           let avg_daily :=
             match daily with
             | [] => Finite 0
             | _ => Pandas.series_mean (map snd daily)
             end in
           let forecast_30d := Float.mul avg_daily (Float.of_int horizon_days) in
           let target_stock :=
             Float.mul avg_daily
                       (Float.of_int (horizon_days + Z.max lead_time 0)) in
           let reorder_qty_raw :=
             Float.max (Finite 0) (Float.sub target_stock on_hand) in
           reorder_qty <- _ceil_to_moq reorder_qty_raw moq ;;
           let days_until_stockout :=
             if Float.lt (Finite 0) avg_daily then Float.div on_hand avg_daily
             else PosInf in
           reorder_by <-
             (if Float.isfinite days_until_stockout then
                f <- Float.floor
                       (Float.sub days_until_stockout (Float.of_int lead_time)) ;;
                d <- Datetime.add_days today (Z.max 0 f) ;;
                Ok (Some d)
              else Ok None) ;;
           if Float.eqb avg_daily (Finite 0) then
             Ok (mkRecommendation
                   sku on_hand avg_daily forecast_30d reorder_qty reorder_by
                   lead_time moq unit_cost GREEN
                   "No recent sales detected; no reorder recommendation.")
           else
             let status :=
               if Float.le days_until_stockout (Float.of_int lead_time) then RED
               else if Float.le days_until_stockout (Float.of_int (lead_time + 7))
                    then AMBER
                    else GREEN in
             let d14 := Pandas.minus_days (Pandas.max_Date g) 14 in
             let d28 := Pandas.minus_days (Pandas.max_Date g) 28 in
             let recent14 := filter (Pandas.Date_ge d14) g in
             let prev14 :=
               filter (fun r => Pandas.Date_lt d14 r && Pandas.Date_ge d28 r) g in
             let trend_note :=
               if negb (Nat.eqb (List.length recent14) 0)
                  && negb (Nat.eqb (List.length prev14) 0) then
                 let r := Pandas.series_mean (map UnitsSold recent14) in
                 let p := Pandas.series_mean (map UnitsSold prev14) in
                 if Float.lt (Finite 0) p then
                   let pct :=
                     Float.mul (Float.div (Float.sub r p) p) (Finite 100) in
                   if Float.le (Finite 10) (Float.abs pct) then
                     (" Demand changed ~" ++ Format.fixed 0 pct
                        ++ "% vs prior 2 weeks.")%string
                   else ""%string
                 else ""%string
               else ""%string in
             Ok (mkRecommendation
                   sku on_hand avg_daily forecast_30d reorder_qty reorder_by
                   lead_time moq unit_cost status
                   ("Avg daily sales " ++ Format.fixed 1 avg_daily
                      ++ ". Lead time " ++ Format.of_int lead_time ++ "d. "
                      ++ "Forecast next " ++ Format.of_int horizon_days ++ "d "
                      ++ Format.fixed 0 forecast_30d ++ ". "
                      ++ "Recommend reorder " ++ Format.fixed 0 reorder_qty
                      ++ " to cover horizon + lead time."
                      ++ trend_note)%string))
        (Pandas.groupby_SKU df') ;;
    Ok (sort_by_key recs).

End AppMain.

(** ** [src/backend/main.py]: the bearer-token check

    [_get_jwks_client] and [verify_clerk_token].  The calls into PyJWT
    ([PyJWKClient.get_signing_key_from_jwt], [jwt.decode]) are library code:
    they are taken as given functions that return or raise.  A header value
    is a string of code points below 256.  The cache is cachetools'
    [TTLCache]: an entry lives while the timer reads less than its expiry,
    and each operation reads the timer anew, so the three readings a call
    may take are arguments. *)

Module Auth.

(** What the dependency does: it returns, or raises [HTTPException], or fails
    on the index of [split(" ", 1)[1]]. *)
Inductive outcome (A : Type) : Type :=
| Returns (a : A)
| Raises_HTTPException (status_code : Z) (detail : string)
| Raises_IndexError.
Arguments Returns {A} a.
Arguments Raises_HTTPException {A} status_code detail.
Arguments Raises_IndexError {A}.

(** What can be raised inside the [try] block. *)
Inductive raised : Type :=
| ExpiredSignatureError
| HTTPException (status_code : Z) (detail : string)
| KeyError
| OtherException.

(** A library call: it returns, or raises [jwt.ExpiredSignatureError], or
    raises some other [Exception]. *)
Inductive lib_result (A : Type) : Type :=
| LReturn (a : A)
| LExpired
| LError.
Arguments LReturn {A} a.
Arguments LExpired {A}.
Arguments LError {A}.

(** [TTLCache(maxsize=2, ttl=3600)] holding at most the key ["client"]: the
    client, which is [PyJWKClient(uri)] and stands here as its [uri], and the
    time at which it expires. *)
Definition TTLCache : Type := option (string * Q).

Definition ttl : Q := 3600.

(** ["client" in cache], at timer reading [now]. *)
Definition contains (cache : TTLCache) (now : Q) : bool :=
  match cache with
  | Some (_, expires) => Float.Qltb now expires
  | None => false
  end.

(** [cache["client"] = client], at timer reading [now]. *)
Definition setitem (cache : TTLCache) (now : Q) (client : string) : TTLCache :=
  Some (client, Qred (now + ttl)).

(** [cache["client"]], at timer reading [now]; [None] is [KeyError]. *)
Definition getitem (cache : TTLCache) (now : Q) : option string :=
  match cache with
  | Some (client, expires) => if Float.Qltb now expires then Some client else None
  | None => None
  end.

(** [not s] for a string. *)
Definition is_empty (s : string) : bool :=
  match s with EmptyString => true | _ => false end.

Definition _get_jwks_client (CLERK_JWKS_URL : string) (cache : TTLCache)
           (t_in t_set t_get : Q) : (string + raised) * TTLCache :=
  let through (c : TTLCache) :=
    match getitem c t_get with
    | Some client => (inl client, c)
    | None => (inr KeyError, c)
    end in
  if negb (contains cache t_in) then
    if is_empty CLERK_JWKS_URL then
      (inr (HTTPException 500 "Server misconfigured: CLERK_JWKS_URL missing"), cache)
    else through (setitem cache t_set CLERK_JWKS_URL)
  else through cache.

(** [str.isspace] on one code point below 256. *)
Definition is_space (c : ascii) : bool :=
  let n := N_of_ascii c in
  ((9 <=? n) && (n <=? 13) || (28 <=? n) && (n <=? 32)
   || (n =? 133) || (n =? 160))%N.

Fixpoint lstrip (s : string) : string :=
  match s with
  | EmptyString => EmptyString
  | String c s' => if is_space c then lstrip s' else s
  end.

Fixpoint rstrip (s : string) : string :=
  match s with
  | EmptyString => EmptyString
  | String c s' =>
      match rstrip s' with
      | EmptyString => if is_space c then EmptyString else String c EmptyString
      | r => String c r
      end
  end.

(** [s.strip()]. *)
Definition strip (s : string) : string := rstrip (lstrip s).

(** [s.split(" ", 1)]: the parts around the first space, or [s] alone. *)
Fixpoint split_space_1 (s : string) : list string :=
  match s with
  | EmptyString => [EmptyString]
  | String c s' =>
      if Ascii.eqb c " " then [EmptyString; s']
      else match split_space_1 s' with
           | part :: rest => String c part :: rest
           | [] => [String c EmptyString]
           end
  end.

Section Dependency.

(** The types and calls of PyJWT, and the values a payload may hold. *)
Variables Key Payload Value : Type.
Variable get_signing_key_from_jwt : string -> string -> lib_result Key.
Variable jwt_decode : string -> Key -> string -> lib_result Payload.
Variable payload_get_sub : Payload -> option Value.
Variable truthy : Value -> bool.

(** The dict returned: [{"user_id": ..., "org_id": ..., "claims": ...}]. *)
Record identity : Type := mkIdentity {
  user_id : Value;
  org_id : string;
  claims : Payload
}.

(** The [try] block. *)
Definition try_block (CLERK_JWKS_URL CLERK_ISSUER : string) (cache : TTLCache)
           (t_in t_set t_get : Q) (token : string) : (Payload + raised) * TTLCache :=
  match _get_jwks_client CLERK_JWKS_URL cache t_in t_set t_get with
  | (inr e, cache') => (inr e, cache')
  | (inl jwks_client, cache') =>
      match get_signing_key_from_jwt jwks_client token with
      | LExpired => (inr ExpiredSignatureError, cache')
      | LError => (inr OtherException, cache')
      | LReturn signing_key =>
          match jwt_decode token signing_key CLERK_ISSUER with
          | LExpired => (inr ExpiredSignatureError, cache')
          | LError => (inr OtherException, cache')
          | LReturn payload => (inl payload, cache')
          end
      end
  end.

Definition verify_clerk_token (CLERK_JWKS_URL CLERK_ISSUER : string)
           (cache : TTLCache) (t_in t_set t_get : Q)
           (authorization x_org_id : option string)
  : outcome identity * TTLCache :=
  match authorization with
  | None => (Raises_HTTPException 401 "Missing Authorization Bearer token", cache)
  | Some auth =>
      if is_empty auth || negb (String.prefix "Bearer " auth) then
        (Raises_HTTPException 401 "Missing Authorization Bearer token", cache)
      else
        match nth_error (split_space_1 auth) 1 with
        | None => (Raises_IndexError, cache)
        | Some part =>
            let token := strip part in
            if is_empty token then (Raises_HTTPException 401 "Empty token", cache)
            else if is_empty CLERK_ISSUER then
              (Raises_HTTPException 500 "Server misconfigured: CLERK_ISSUER missing",
               cache)
            else
              match x_org_id with
              | None =>
                  (Raises_HTTPException
                     400 "Missing X-Org-Id header (select a Company/Organization)",
                   cache)
              | Some org =>
                  if is_empty org then
                    (Raises_HTTPException
                       400 "Missing X-Org-Id header (select a Company/Organization)",
                     cache)
                  else
                    match try_block CLERK_JWKS_URL CLERK_ISSUER cache
                                    t_in t_set t_get token with
                    | (inr ExpiredSignatureError, cache') =>
                        (Raises_HTTPException 401 "Token expired", cache')
                    | (inr _, cache') =>
                        (Raises_HTTPException 401 "Invalid token", cache')
                    | (inl payload, cache') =>
                        match payload_get_sub payload with
                        | None =>
                            (Raises_HTTPException 401 "Invalid token payload", cache')
                        | Some sub =>
                            if truthy sub then
                              (Returns (mkIdentity sub org payload), cache')
                            else
                              (Raises_HTTPException 401 "Invalid token payload",
                               cache')
                        end
                    end
              end
        end
  end.

End Dependency.

End Auth.

(** The seven [HTTPException]s that [verify_clerk_token] raises in its own
    text: status code and detail. *)
Definition verify_errors : list (Z * string) :=
  [ (401, "Missing Authorization Bearer token"%string);
    (401, "Empty token"%string);
    (500, "Server misconfigured: CLERK_ISSUER missing"%string);
    (400, "Missing X-Org-Id header (select a Company/Organization)"%string);
    (401, "Token expired"%string);
    (401, "Invalid token"%string);
    (401, "Invalid token payload"%string) ].


(** ** Notions used in the statements *)

(** The only exception that names columns is the one of the column guard. *)
Definition is_missing_columns (e : exn) : bool :=
  match e with
  | ValueError_missing_columns _ => true
  | _ => false
  end.

(** The order of the output: a better rank first; for one rank, the larger
    quantity first. *)
Definition before (a b : Recommendation) : Prop :=
  Main.order (status a) < Main.order (status b)
  \/ (status a = status b
      /\ Float.le (reorder_qty b) (reorder_qty a) = true).


(** ** Sample tables *)

Module Sample.

Definition env : Main.Process := Main.mkProcess 739000 "" "" None.

Definition required : list string :=
  ["SKU"; "Date"; "UnitsSold"; "OnHand"; "LeadTimeDays"]%string.

Definition with_MOQ_Cost : list string :=
  ["SKU"; "Date"; "UnitsSold"; "OnHand"; "LeadTimeDays"; "MOQ"; "Cost"]%string.

(** Midnight of day [n] after the epoch. *)
Definition at_day (n : Z) : option Z := Some (n * Pandas.ns_per_day).

(** One SKU, one dated row. *)
Definition one_row (units on_hand lead moq cost : pyfloat) : list (Row (option Z)) :=
  [mkRow (Some "A1"%string) (at_day 20000) units on_hand lead moq cost].

(** Sales of 2 a day, lead time 5, and the given stock. *)
Definition stock (on_hand : Q) : DataFrame :=
  mkDataFrame required (one_row (Finite 2) (Finite on_hand) (Finite 5) NaN NaN).

(** A table with no [OnHand] and no [Date] column. *)
Definition lacks_two : DataFrame :=
  mkDataFrame ["SKU"; "UnitsSold"; "LeadTimeDays"]%string
              (one_row (Finite 2) NaN (Finite 5) NaN NaN).

(** One unit returned and nothing sold. *)
Definition returns : DataFrame :=
  mkDataFrame required (one_row (Finite (-1)) (Finite 10) (Finite 5) NaN NaN).

(** A minimum order quantity of 0 on the only row. *)
Definition zero_MOQ : DataFrame :=
  mkDataFrame with_MOQ_Cost
              (one_row (Finite 2) (Finite 10) (Finite 5) (Finite 0) (Finite (5 # 2))).

(** The lead time, or the stock, left empty on the only row. *)
Definition empty_LeadTimeDays : DataFrame :=
  mkDataFrame with_MOQ_Cost (one_row (Finite 2) (Finite 10) NaN NaN NaN).

Definition empty_OnHand : DataFrame :=
  mkDataFrame with_MOQ_Cost (one_row (Finite 2) NaN (Finite 5) NaN NaN).

(** Four SKUs in the order GREEN, RED, AMBER, RED of their statuses. *)
Definition four_rows : list (Row (option Z)) :=
  [ mkRow (Some "A"%string) (at_day 20000) (Finite 1) (Finite 60) (Finite 5) NaN NaN;
    mkRow (Some "B"%string) (at_day 20000) (Finite 1) (Finite 4) (Finite 5) (Finite 31) NaN;
    mkRow (Some "C"%string) (at_day 20000) (Finite 1) (Finite 8) (Finite 5) NaN NaN;
    mkRow (Some "D"%string) (at_day 20000) (Finite 1) (Finite 2) (Finite 5) NaN NaN ].

Definition four : DataFrame := mkDataFrame with_MOQ_Cost four_rows.

(** One SKU with 30 consecutive daily rows: 2 sold a day, 10 in stock, a
    lead time of 5. *)
Definition thirty_days : DataFrame :=
  mkDataFrame required
    (map (fun n => mkRow (Some "A1"%string) (at_day (20000 + Z.of_nat n))
                         (Finite 2) (Finite 10) (Finite 5) NaN NaN)
         (seq 0 30)).

(** Recommendations holding only a status and a quantity. *)
Definition rec_of (s : Status) (qty : Q) : Recommendation :=
  mkRecommendation "" (Finite 0) (Finite 1) (Finite 30) (Finite qty) None 0 None None
                   s "".

End Sample.

(** ** Notions used in the further statements *)





(** The units a sales cell stands for in a total: a missing value counts as
    none. *)
Definition units (x : pyfloat) : Q :=
  match x with Finite q => q | _ => 0%Q end.





(** A string of whitespace only. *)
Fixpoint blank (s : string) : bool :=
  match s with
  | EmptyString => true
  | String c s' => Auth.is_space c && blank s'
  end.

(** A stand-in for the library, for examples: tokens "good" and "late" have a
    signing key; decoding "late" finds it expired, decoding any other token
    gives claims whose [sub] is "user_1". *)
Module AuthSample.

Definition get_signing_key_from_jwt (client token : string) : Auth.lib_result string :=
  if String.eqb token "good" || String.eqb token "late"
  then Auth.LReturn ("key of " ++ client)%string
  else Auth.LError.

Definition jwt_decode (token key issuer : string) : Auth.lib_result string :=
  if String.eqb token "late" then Auth.LExpired else Auth.LReturn "user_1"%string.

Definition payload_get_sub (payload : string) : option string := Some payload.

Definition truthy (v : string) : bool := negb (Auth.is_empty v).

Definition verify :=
  Auth.verify_clerk_token string string string get_signing_key_from_jwt jwt_decode
                          payload_get_sub truthy.

End AuthSample.

(** * Properties *)

(** ** Rational and float facts *)

Lemma Qltb_true (a b : Q) : Float.Qltb a b = true <-> (a < b)%Q.
Proof.
  unfold Float.Qltb. rewrite negb_true_iff.
  destruct (Qle_bool b a) eqn:E.
  - apply Qle_bool_iff in E. split; [discriminate | intro H].
    exfalso. exact (Qlt_not_le _ _ H E).
  - split; [intros _ | reflexivity].
    apply Qnot_le_lt. intro H. apply Qle_bool_iff in H. congruence.
Qed.

Lemma Qltb_false (a b : Q) : Float.Qltb a b = false <-> (b <= a)%Q.
Proof.
  unfold Float.Qltb. rewrite negb_false_iff. apply Qle_bool_iff.
Qed.

Lemma Float_le_of_lt_false (x y : pyfloat) :
  Float.notna x = true -> Float.notna y = true ->
  Float.lt x y = false -> Float.le y x = true.
Proof.
  destruct x, y; simpl; try discriminate; try reflexivity.
  intros _ _ H. apply Qltb_false in H. now apply Qle_bool_iff.
Qed.


Lemma Float_max_notna (a b : pyfloat) :
  Float.notna a = true -> Float.notna (Float.max a b) = true.
Proof.
  intro Ha. unfold Float.max. destruct (Float.lt a b) eqn:E; [|exact Ha].
  destruct a, b; simpl in *; try discriminate; reflexivity.
Qed.

Lemma Float_max_ge0 (x : pyfloat) :
  Float.le (Finite 0) (Float.max (Finite 0) x) = true.
Proof.
  unfold Float.max. destruct (Float.lt (Finite 0) x) eqn:E; [|reflexivity].
  destruct x; simpl in *; try discriminate; try reflexivity.
  apply Qltb_true in E. apply Qle_bool_iff. now apply Qlt_le_weak.
Qed.

(** ** Loops and exceptions *)

Lemma for_each_Raise {A B : Type} (body : A -> result B) (l : list A) (e : exn) :
  for_each body l = Raise e -> exists a, In a l /\ body a = Raise e.
Proof.
  induction l as [|a l IH]; simpl; [discriminate|].
  destruct (body a) eqn:Ea; simpl.
  - destruct (for_each body l) eqn:El; simpl; [discriminate|].
    intro H. inversion H; subst.
    destruct (IH eq_refl) as (a' & Hin & Ha'). exists a'. auto.
  - intro H. inversion H; subst. exists a. auto.
Qed.

Lemma for_each_Ok {A B : Type} (body : A -> result B) (l : list A) (bs : list B) :
  for_each body l = Ok bs -> Forall2 (fun a b => body a = Ok b) l bs.
Proof.
  revert bs. induction l as [|a l IH]; simpl; intros bs H.
  - inversion H. constructor.
  - destruct (body a) eqn:Ea; simpl in H; [|discriminate].
    destruct (for_each body l) eqn:El; simpl in H; [|discriminate].
    inversion H; subst. constructor; auto.
Qed.

Lemma for_each_total {A B : Type} (body : A -> result B) (l : list A) :
  (forall a, In a l -> exists b, body a = Ok b) ->
  exists bs, for_each body l = Ok bs.
Proof.
  induction l as [|a l IH]; simpl; intro H; [eauto|].
  destruct (H a (or_introl eq_refl)) as (b & ->). simpl.
  destruct IH as (bs & ->); [auto|]. simpl. eauto.
Qed.

Lemma to_int_Raise x e : Float.to_int x = Raise e -> is_missing_columns e = false.
Proof. destruct x; simpl; intro H; inversion H; reflexivity. Qed.

Lemma ceil_Raise x e : Float.ceil x = Raise e -> is_missing_columns e = false.
Proof. destruct x; simpl; intro H; inversion H; reflexivity. Qed.

Lemma floor_Raise x e : Float.floor x = Raise e -> is_missing_columns e = false.
Proof. destruct x; simpl; intro H; inversion H; reflexivity. Qed.

Lemma add_days_Raise t n e :
  Datetime.add_days t n = Raise e -> is_missing_columns e = false.
Proof.
  unfold Datetime.add_days.
  destruct (Z.abs n >? _); [intro H; inversion H; reflexivity|].
  destruct (_ || _); intro H; inversion H; reflexivity.
Qed.

Lemma iloc_last_Raise g e :
  Pandas.iloc_last g = Raise e -> is_missing_columns e = false.
Proof.
  unfold Pandas.iloc_last. destruct (rev g); intro H; inversion H; reflexivity.
Qed.

Lemma moq_of_Raise v e : Main.moq_of v = Raise e -> is_missing_columns e = false.
Proof.
  unfold Main.moq_of. destruct v as [x|]; [|discriminate].
  destruct (Float.notna x); [|discriminate].
  destruct (Float.to_int x) eqn:E; simpl; [discriminate|].
  intro H; inversion H; subst. eapply to_int_Raise; eauto.
Qed.

Lemma ceil_to_moq_Raise q m e :
  Main._ceil_to_moq q m = Raise e -> is_missing_columns e = false.
Proof.
  unfold Main._ceil_to_moq. destruct m as [m|]; [|discriminate].
  destruct (m <=? 0); [discriminate|].
  destruct (Float.le q (Finite 0)); [discriminate|].
  destruct (Float.ceil _) eqn:E; simpl; [discriminate|].
  intro H; inversion H; subst. eapply ceil_Raise; eauto.
Qed.

Lemma reorder_by_of_Raise t d l e :
  Main.reorder_by_of t d l = Raise e -> is_missing_columns e = false.
Proof.
  unfold Main.reorder_by_of. destruct (Float.isfinite d); [|discriminate].
  destruct (Float.floor _) eqn:E; simpl.
  - destruct (Datetime.add_days _ _) eqn:E'; simpl; [discriminate|].
    intro H; inversion H; subst. eapply add_days_Raise; eauto.
  - intro H; inversion H; subst. eapply floor_Raise; eauto.
Qed.

(** Stepping through a sequence of [bind]s whose result is known. *)
Ltac bind_Ok H :=
  match type of H with
  | bind ?m _ = Ok _ =>
      let E := fresh "E" in
      destruct m eqn:E; [cbn [bind] in H | discriminate H]
  end.

Ltac bind_Raise H lem :=
  match type of H with
  | bind ?m _ = Raise _ =>
      let E := fresh "E" in
      destruct m eqn:E;
      [cbn [bind] in H
      | cbn [bind] in H; inversion H; subst; eapply lem; eassumption]
  end.

Lemma loop_body_Raise today cols h sku g e :
  Main.loop_body today cols h sku g = Raise e -> is_missing_columns e = false.
Proof.
  unfold Main.loop_body. intro H.
  bind_Raise H iloc_last_Raise.
  bind_Raise H to_int_Raise.
  bind_Raise H moq_of_Raise.
  bind_Raise H ceil_to_moq_Raise.
  bind_Raise H reorder_by_of_Raise.
  destruct (Main.status_and_reason _ _ _ _ _ _ _). discriminate.
Qed.

(** What a returned [Recommendation] holds, field by field. *)
Lemma loop_body_Ok today cols h k g0 rec :
  Main.loop_body today cols h k g0 = Ok rec ->
  let g := Pandas.sort_values_Date g0 in
  exists last,
    Pandas.iloc_last g = Ok last
    /\ sku rec = k
    /\ current_stock rec = Pandas.or0 (Pandas.get cols last "OnHand" (Some (Finite 0)))
    /\ Float.to_int (Pandas.or0 (Pandas.get cols last "LeadTimeDays" (Some (Finite 0))))
       = Ok (lead_time_days rec)
    /\ Main.moq_of (Pandas.get cols last "MOQ" None) = Ok (moq rec)
    /\ unit_cost rec
       = (if Pandas.notna_not_None (Pandas.get cols last "Cost" None)
          then Pandas.get cols last "Cost" None else None)
    /\ avg_daily_sales rec = Main.avg_daily_of g
    /\ forecast_30d rec = Float.mul (avg_daily_sales rec) (Float.of_int h)
    /\ Main._ceil_to_moq
         (Float.max (Finite 0)
            (Float.sub
               (Float.mul (avg_daily_sales rec)
                          (Float.of_int (h + Z.max (lead_time_days rec) 0)))
               (current_stock rec)))
         (moq rec)
       = Ok (reorder_qty rec)
    /\ Main.reorder_by_of today
         (Main.days_until_stockout_of (current_stock rec) (avg_daily_sales rec))
         (lead_time_days rec)
       = Ok (reorder_by rec)
    /\ (status rec, reason rec)
       = Main.status_and_reason g h (lead_time_days rec) (avg_daily_sales rec)
           (forecast_30d rec) (reorder_qty rec)
           (Main.days_until_stockout_of (current_stock rec) (avg_daily_sales rec)).
Proof.
  unfold Main.loop_body. intro H.
  bind_Ok H. bind_Ok H. bind_Ok H. bind_Ok H. bind_Ok H.
  destruct (Main.status_and_reason _ _ _ _ _ _ _) as [st rs] eqn:Es.
  inversion H; subst; clear H. simpl.
  exists a. repeat split; try assumption; try reflexivity.
  symmetry; exact Es.
Qed.

(** ** The column guard *)

Lemma has_column_In (cols : list string) (c : string) :
  Pandas.has_column cols c = true <-> In c cols.
Proof.
  unfold Pandas.has_column. rewrite existsb_exists. split.
  - intros (x & Hin & Heq). apply String.eqb_eq in Heq. now subst.
  - intro Hin. exists c. split; [exact Hin | apply String.eqb_refl].
Qed.

Lemma missing_columns_In (df : DataFrame) (c : string) :
  In c (Main.missing_columns df)
  <-> In c Main.REQUIRED_COLS /\ ~ In c (columns df).
Proof.
  unfold Main.missing_columns. rewrite filter_In, negb_true_iff.
  rewrite <- (has_column_In (columns df) c).
  destruct (Pandas.has_column (columns df) c); intuition congruence.
Qed.

(** C1.  The error of the column guard carries [missing_columns df], whose
    members are exactly the required columns that the table lacks; it is
    raised, in place of any list of recommendations, whenever a required
    column is absent, and never when all five are present. *)
Theorem column_guard (env : Main.Process) (df : DataFrame) (horizon_days : Z) :
  (forall c,
      In c (Main.missing_columns df)
      <-> In c ["SKU"; "Date"; "UnitsSold"; "OnHand"; "LeadTimeDays"]%string
          /\ ~ In c (columns df))
  /\ ((exists c, In c Main.REQUIRED_COLS /\ ~ In c (columns df)) ->
      Main.compute_recommendations env df horizon_days
      = Raise (ValueError_missing_columns (Main.missing_columns df)))
  /\ ((forall c, In c Main.REQUIRED_COLS -> In c (columns df)) ->
      forall missing,
        Main.compute_recommendations env df horizon_days
        <> Raise (ValueError_missing_columns missing)).
Proof.
  split; [|split].
  - intro c. apply missing_columns_In.
  - intros (c & Hc). apply missing_columns_In in Hc.
    unfold Main.compute_recommendations. cbv zeta.
    destruct (Main.missing_columns df) as [|m ms] eqn:Em; [destruct Hc | reflexivity].
  - intros Hall missing H.
    unfold Main.compute_recommendations in H. cbv zeta in H.
    destruct (Main.missing_columns df) as [|m ms] eqn:Em.
    + destruct (for_each _ _) as [recs|e] eqn:Ef; simpl in H; [discriminate|].
      inversion H; subst; clear H.
      apply for_each_Raise in Ef. destruct Ef as (kg & _ & Hb).
      apply loop_body_Raise in Hb. discriminate Hb.
    + assert (Hm : In m (Main.missing_columns df)) by (rewrite Em; now left).
      apply missing_columns_In in Hm. destruct Hm as (Hreq & Habs).
      exact (Habs (Hall m Hreq)).
Qed.

(** ** The final sort *)

Lemma insert_rec_perm (r : Recommendation) (l : list Recommendation) :
  Permutation (Main.insert_rec r l) (r :: l).
Proof.
  induction l as [|x l IH]; simpl; [reflexivity|].
  destruct (Main.key_lt _ _); [|reflexivity].
  rewrite IH. apply perm_swap.
Qed.

Lemma sort_recs_perm (l : list Recommendation) :
  Permutation (Main.sort_recs l) l.
Proof.
  induction l as [|r l IH]; simpl; [reflexivity|].
  rewrite insert_rec_perm. now constructor.
Qed.

(** Every recommendation returned comes from the loop body run on one group. *)
Lemma compute_recommendations_In env df h recs rec :
  Main.compute_recommendations env df h = Ok recs ->
  In rec recs ->
  exists k g,
    In (k, g) (Pandas.groupby_SKU (Pandas.dropna_Date (rows df)))
    /\ Main.loop_body (Main.clock_today env) (columns df) h k g = Ok rec.
Proof.
  unfold Main.compute_recommendations. cbv zeta.
  destruct (Main.missing_columns df); [|discriminate].
  intros H Hin. bind_Ok H. inversion H; subst; clear H.
  apply (Permutation_in _ (sort_recs_perm a)) in Hin.
  apply for_each_Ok in E.
  induction E as [|kg b l bs Hb _ IH]; [destruct Hin|].
  destruct Hin as [<- | Hin].
  - exists (fst kg), (snd kg). split; [left; now destruct kg | exact Hb].
  - destruct (IH Hin) as (k & g & Hkg & Hk). exists k, g. split; [now right | exact Hk].
Qed.

Lemma order_inj (s t : Status) : Main.order s = Main.order t -> s = t.
Proof. destruct s, t; simpl; intro H; try reflexivity; discriminate H. Qed.

Lemma Float_le_trans (x y z : pyfloat) :
  Float.le x y = true -> Float.le y z = true -> Float.le x z = true.
Proof.
  destruct x, y, z; simpl; try discriminate; try reflexivity.
  intros H1 H2. apply Qle_bool_iff in H1, H2. apply Qle_bool_iff.
  eapply Qle_trans; eauto.
Qed.

Lemma before_trans (a b c : Recommendation) :
  before a b -> before b c -> before a c.
Proof.
  unfold before. intros [H1 | (E1 & L1)] [H2 | (E2 & L2)].
  - left; lia.
  - left; rewrite <- E2; exact H1.
  - left; rewrite E1; exact H2.
  - right. split; [congruence | eapply Float_le_trans; eauto].
Qed.

Lemma Float_lt_neg (x y : pyfloat) :
  Float.lt (Float.neg x) (Float.neg y) = Float.lt y x.
Proof.
  destruct x, y; cbn [Float.lt Float.neg]; try reflexivity.
  unfold Float.Qltb. f_equal. apply eq_true_iff_eq.
  rewrite !Qle_bool_iff, !Qred_correct. split; intro H.
  - apply Qopp_le_compat in H. now rewrite !Qopp_involutive in H.
  - now apply Qopp_le_compat.
Qed.

Lemma key_lt_true_before (x r : Recommendation) :
  Main.key_lt (Main.sort_key x) (Main.sort_key r) = true -> before x r.
Proof.
  unfold Main.key_lt, Main.sort_key, before; simpl.
  destruct (Z.eqb_spec (Main.order (status x)) (Main.order (status r))) as [E|E].
  - destruct (Float.eqb _ _); [discriminate|].
    rewrite Float_lt_neg. intro H. right. split; [now apply order_inj|].
    destruct (reorder_qty r), (reorder_qty x); simpl in *;
      try discriminate; try reflexivity.
    apply Qltb_true in H. apply Qle_bool_iff. now apply Qlt_le_weak.
  - intro H. left. now apply Z.ltb_lt.
Qed.

Lemma key_lt_false_before (x r : Recommendation) :
  Float.notna (reorder_qty x) = true ->
  Float.notna (reorder_qty r) = true ->
  Main.key_lt (Main.sort_key x) (Main.sort_key r) = false -> before r x.
Proof.
  unfold Main.key_lt, Main.sort_key, before; simpl. intros Nx Nr.
  destruct (Z.eqb_spec (Main.order (status x)) (Main.order (status r))) as [E|E].
  - intro H. right. split; [symmetry; now apply order_inj|].
    destruct (Float.eqb _ _) eqn:Eq.
    + destruct (reorder_qty r), (reorder_qty x);
        cbn [Float.eqb Float.neg Float.le Float.notna Float.isnan negb] in *;
        try discriminate; try reflexivity.
      apply Qeq_bool_iff in Eq. rewrite !Qred_correct in Eq.
      apply Qle_bool_iff.
      assert (Hq : (q0 == q)%Q).
      { rewrite <- (Qopp_involutive q0), <- (Qopp_involutive q), Eq. reflexivity. }
      rewrite Hq. apply Qle_refl.
    + rewrite Float_lt_neg in H. now apply Float_le_of_lt_false.
  - intro H. left. apply Z.ltb_ge in H. lia.
Qed.

Lemma insert_rec_sorted (r : Recommendation) (l : list Recommendation) :
  Float.notna (reorder_qty r) = true ->
  Forall (fun x => Float.notna (reorder_qty x) = true) l ->
  StronglySorted before l ->
  StronglySorted before (Main.insert_rec r l).
Proof.
  intros Nr Nl S. induction S as [|x l S IH Hx]; simpl.
  - repeat constructor.
  - inversion Nl as [|? ? Nx Nl']; subst.
    destruct (Main.key_lt _ _) eqn:E.
    + constructor; [now apply IH|].
      apply (Forall_forall (before x)). intros y Hy.
      apply (Permutation_in _ (insert_rec_perm r l)) in Hy.
      destruct Hy as [<- | Hy].
      * now apply key_lt_true_before.
      * exact (proj1 (Forall_forall _ _) Hx y Hy).
    + assert (Hrx : before r x) by now apply key_lt_false_before.
      constructor; [now constructor|].
      constructor; [exact Hrx|].
      apply (Forall_forall (before r)). intros y Hy.
      eapply before_trans; [exact Hrx|].
      exact (proj1 (Forall_forall _ _) Hx y Hy).
Qed.

Lemma sort_recs_sorted (l : list Recommendation) :
  Forall (fun x => Float.notna (reorder_qty x) = true) l ->
  StronglySorted before (Main.sort_recs l).
Proof.
  induction 1 as [|r l Nr Nl IH]; simpl; [constructor|].
  apply insert_rec_sorted; [exact Nr | | exact IH].
  apply Forall_forall. intros y Hy.
  apply (Permutation_in _ (sort_recs_perm l)) in Hy.
  exact (proj1 (Forall_forall _ _) Nl y Hy).
Qed.

(** ** Rounding to the minimum order quantity *)

Lemma Qle_bool_false (a b : Q) : Qle_bool a b = false <-> (b < a)%Q.
Proof.
  rewrite <- Qltb_true. unfold Float.Qltb. now rewrite negb_true_iff.
Qed.


Lemma ceiling_multiple (q : Q) (m : Z) :
  0 < m -> 
  let k := Qceiling (Qred (q / inject_Z m)) in
  (q <= inject_Z (k * m))%Q
  /\ forall j, (q <= inject_Z (j * m))%Q -> k * m <= j * m.
Proof.
  intros Hm k.
  assert (HM : (0 < inject_Z m)%Q).
  { change (inject_Z 0 < inject_Z m)%Q. rewrite <- Zlt_Qlt. exact Hm. }
  assert (HM0 : ~ (inject_Z m == 0)%Q).
  { intro E. rewrite E in HM. exact (Qlt_irrefl _ HM). }
  assert (Hk : k = Qceiling (q / inject_Z m)).
  { unfold k. now rewrite Qred_correct. }
  split.
  - rewrite inject_Z_mult, Hk.
    assert (H := Qle_ceiling (q / inject_Z m)).
    apply (Qmult_le_compat_r _ _ (inject_Z m)) in H; [|now apply Qlt_le_weak].
    assert (Hq : (q / inject_Z m * inject_Z m == q)%Q) by (field; exact HM0).
    rewrite Hq in H. exact H.
  - intros j Hj. rewrite inject_Z_mult in Hj.
    apply Qle_shift_div_r in Hj; [|exact HM].
    assert (H := Qceiling_lt (q / inject_Z m)). rewrite <- Hk in H.
    assert (Hlt : (inject_Z (k - 1) < inject_Z j)%Q)
      by (eapply Qlt_le_trans; eauto).
    rewrite <- Zlt_Qlt in Hlt.
    apply Z.mul_le_mono_nonneg_r; lia.
Qed.


(** Outside the finite quantities: with a positive [moq], [math.ceil] raises
    on NaN and on the infinities.  The engine passes [max(0.0, ...)], which is
    never NaN. *)
Lemma ceil_to_moq_not_finite (m : Z) :
  0 < m ->
  Main._ceil_to_moq NaN (Some m) = Raise ValueError_nan_to_int
  /\ Main._ceil_to_moq PosInf (Some m) = Raise OverflowError_inf_to_int.
Proof.
  intro Hm. unfold Main._ceil_to_moq.
  destruct (Z.leb_spec m 0) as [H|_]; [lia|]. split; [reflexivity|].
  unfold Float.of_int. cbn [Float.le Float.div Float.sign].
  destruct (Qcompare (inject_Z m) 0); reflexivity.
Qed.

Lemma ceil_to_moq_notna (q : pyfloat) (moq : option Z) (r : pyfloat) :
  Main._ceil_to_moq q moq = Ok r -> Float.notna r = true.
Proof.
  unfold Main._ceil_to_moq.
  assert (Hmax : Float.notna (Float.max (Finite 0) q) = true)
    by now apply Float_max_notna.
  destruct moq as [m|]; [|intro H; inversion H; subst; exact Hmax].
  destruct (m <=? 0); [intro H; inversion H; subst; exact Hmax|].
  destruct (Float.le q (Finite 0)); [intro H; inversion H; reflexivity|].
  intro H. bind_Ok H. inversion H. reflexivity.
Qed.

Lemma loop_body_reorder_qty_notna today cols h k g rec :
  Main.loop_body today cols h k g = Ok rec ->
  Float.notna (reorder_qty rec) = true.
Proof.
  intro H. apply loop_body_Ok in H.
  destruct H as (last & _ & _ & _ & _ & _ & _ & _ & _ & Hq & _).
  eapply ceil_to_moq_notna; eauto.
Qed.

(** C7.  The list returned is ordered by status, RED then AMBER then GREEN,
    and within one status by decreasing [reorder_qty]; the sort puts
    GREEN(5), RED(1), AMBER(9), RED(3) in the order RED(3), RED(1), AMBER(9),
    GREEN(5). *)
Theorem output_order (env : Main.Process) (df : DataFrame) (horizon_days : Z)
        (recs : list Recommendation) :
  Main.compute_recommendations env df horizon_days = Ok recs ->
  StronglySorted before recs
  /\ (forall a b l1 l2 l3, recs = l1 ++ a :: l2 ++ b :: l3 ->
        Main.order (status a) <= Main.order (status b)
        /\ (status a = status b ->
            Float.le (reorder_qty b) (reorder_qty a) = true))
  /\ map (fun r => (status r, reorder_qty r))
         (Main.sort_recs [Sample.rec_of GREEN 5; Sample.rec_of RED 1;
                          Sample.rec_of AMBER 9; Sample.rec_of RED 3])
     = [(RED, Finite 3); (RED, Finite 1); (AMBER, Finite 9); (GREEN, Finite 5)].
Proof.
  intro H.
  assert (S : StronglySorted before recs).
  { assert (Hin := compute_recommendations_In env df horizon_days recs).
    unfold Main.compute_recommendations in H. cbv zeta in H.
    destruct (Main.missing_columns df); [|discriminate].
    bind_Ok H. inversion H; subst; clear H.
    apply sort_recs_sorted. apply Forall_forall. intros r Hr.
    apply for_each_Ok in E.
    clear Hin. induction E as [|kg b l bs Hb _ IH]; [destruct Hr|].
    destruct Hr as [<- | Hr]; [|now apply IH].
    eapply loop_body_reorder_qty_notna; eauto. }
  split; [exact S|]. split; [|reflexivity].
  intros a b l1 l2 l3 ->.
  assert (Hab : before a b).
  { clear H. induction l1 as [|x l1 IH]; simpl in S; inversion S; subst.
    - match goal with
      | F : Forall (before a) _ |- _ =>
          apply (proj1 (Forall_forall _ _) F); apply in_or_app; right; now left
      end.
    - now apply IH. }
  destruct Hab as [Hlt | (Heq & Hle)].
  - split; [lia|]. intro E. rewrite E in Hlt. lia.
  - split; [rewrite Heq; lia | intros _; exact Hle].
Qed.

Lemma output_order_witness :
  exists recs,
    Main.compute_recommendations Sample.env Sample.four 30 = Ok recs
    /\ map (fun r => (sku r, status r, reorder_qty r)) recs
       = [("D"%string, RED, Finite 33); ("B"%string, RED, Finite 31);
          ("C"%string, AMBER, Finite 27); ("A"%string, GREEN, Finite 0)]
    /\ StronglySorted before recs.
Proof.
  eexists. split; [vm_compute; reflexivity|]. split; [reflexivity|].
  apply (output_order Sample.env Sample.four 30). vm_compute. reflexivity.
Defined.

(** ** Status, stockout and reorder date *)










(** ** The minimum order quantity in the output *)

Lemma get_MOQ (cols : list string) (last : Row Z) :
  Pandas.get cols last "MOQ" None
  = if Pandas.has_column cols "MOQ" then Some (MOQ last) else None.
Proof. unfold Pandas.get. destruct (Pandas.has_column cols "MOQ"); reflexivity. Qed.

Lemma Float_max0_idem (x : pyfloat) :
  Float.max (Finite 0) (Float.max (Finite 0) x) = Float.max (Finite 0) x.
Proof.
  unfold Float.max at 2 3. destruct (Float.lt (Finite 0) x) eqn:E.
  - unfold Float.max. now rewrite E.
  - reflexivity.
Qed.

(** C6, as the code has it.  The [moq] of a recommendation is null when the
    table has no MOQ column or the last row's MOQ is missing, and otherwise
    the last row's MOQ truncated to an integer, whatever its sign; a [moq]
    that is null, zero or negative leaves the quantity unrounded:
    [reorder_qty = max(0, target_stock - current_stock)]. *)
Theorem moq_passthrough (env : Main.Process) (df : DataFrame) (horizon_days : Z)
        (recs : list Recommendation) (rec : Recommendation) :
  Main.compute_recommendations env df horizon_days = Ok recs ->
  In rec recs ->
  (exists g last,
      In (sku rec, g) (Pandas.groupby_SKU (Pandas.dropna_Date (rows df)))
      /\ Pandas.iloc_last (Pandas.sort_values_Date g) = Ok last
      /\ ((moq rec = None
           /\ (Pandas.has_column (columns df) "MOQ" = false \/ MOQ last = NaN))
          \/ (exists q, Pandas.has_column (columns df) "MOQ" = true
                        /\ MOQ last = Finite q
                        /\ moq rec = Some (Float.Qtrunc q))))
  /\ ((moq rec = None \/ exists m, moq rec = Some m /\ m <= 0) ->
      reorder_qty rec
      = Float.max (Finite 0)
          (Float.sub
             (Float.mul (avg_daily_sales rec)
                        (Float.of_int (horizon_days + Z.max (lead_time_days rec) 0)))
             (current_stock rec))).
Proof.
  intros H Hin.
  destruct (compute_recommendations_In _ _ _ _ _ H Hin) as (k & g & Hg & Hb).
  apply loop_body_Ok in Hb.
  destruct Hb as (last & Hl & Hk & _ & _ & Hm & _ & _ & _ & Hq & _).
  split.
  - exists g, last. rewrite Hk. split; [exact Hg|]. split; [exact Hl|].
    rewrite get_MOQ in Hm. unfold Main.moq_of in Hm.
    destruct (Pandas.has_column (columns df) "MOQ");
      [|left; split; [congruence | now left]].
    destruct (MOQ last) as [| |q|] eqn:Ev; cbn in Hm; try discriminate Hm.
    + left. split; [congruence | now right].
    + right. exists q. repeat split. congruence.
  - intros Hno. unfold Main._ceil_to_moq in Hq.
    destruct Hno as [E | (m & E & Hle)]; rewrite E in Hq; cbv beta iota in Hq.
    + inversion Hq. apply Float_max0_idem.
    + destruct (Z.leb_spec m 0); [|lia]. inversion Hq. apply Float_max0_idem.
Qed.

Lemma moq_passthrough_witness :
  exists r,
    Main.compute_recommendations Sample.env Sample.zero_MOQ 30 = Ok [r]
    /\ (moq r = None \/ exists m, moq r = Some m /\ m <= 0)
    /\ reorder_qty r
       = Float.max (Finite 0)
           (Float.sub
              (Float.mul (avg_daily_sales r)
                         (Float.of_int (30 + Z.max (lead_time_days r) 0)))
              (current_stock r)).
Proof.
  eexists. split; [vm_compute; reflexivity|].
  assert (Hm : forall r : Recommendation,
             moq r = Some 0 -> moq r = None \/ exists m, moq r = Some m /\ m <= 0).
  { intros r E. right. exists 0. split; [exact E | lia]. }
  split; [apply Hm; reflexivity|].
  refine (proj2 (moq_passthrough Sample.env Sample.zero_MOQ 30 _ _ _ _) _).
  - vm_compute. reflexivity.
  - left. reflexivity.
  - apply Hm. reflexivity.
Defined.

(** C6 as stated fails: a last row with a MOQ of 0 is reported with
    [moq = 0], which is neither null nor positive. *)
Lemma moq_zero_reported :
  ~ (forall env df horizon_days recs rec,
        Main.compute_recommendations env df horizon_days = Ok recs ->
        In rec recs ->
        moq rec = None \/ exists m, moq rec = Some m /\ 0 < m).
Proof.
  intro claim.
  assert (H : exists r,
             Main.compute_recommendations Sample.env Sample.zero_MOQ 30 = Ok [r]
             /\ moq r = Some 0).
  { eexists. split; [vm_compute; reflexivity | reflexivity]. }
  destruct H as (r & Hc & Hm).
  destruct (claim _ _ _ _ r Hc (or_introl eq_refl)) as [E | (m & E & Hpos)];
    rewrite Hm in E; [discriminate E|].
  inversion E. lia.
Qed.

(** ** Missing values on the last row *)

Lemma sort_values_Date_single (r : Row Z) : Pandas.sort_values_Date [r] = [r].
Proof. reflexivity. Qed.

(** A last row whose lead time is missing makes the loop body raise: NaN is
    truthy, so [nan or 0] is NaN and [int] refuses it. *)
Lemma loop_body_missing_lead_time today cols h k g last :
  Pandas.iloc_last (Pandas.sort_values_Date g) = Ok last ->
  Pandas.has_column cols "LeadTimeDays" = true ->
  LeadTimeDays last = NaN ->
  Main.loop_body today cols h k g = Raise ValueError_nan_to_int.
Proof.
  intros Hl Hc Hn. unfold Main.loop_body. rewrite Hl. cbn [bind].
  assert (Hg : Pandas.get cols last "LeadTimeDays" (Some (Finite 0)) = Some NaN).
  { unfold Pandas.get. rewrite Hc. cbn. now rewrite Hn. }
  rewrite Hg. reflexivity.
Qed.

(** C2 on the code.  With the last row's lead time empty the call raises; with
    its stock empty the call returns [current_stock = nan], not 0, and with it
    no reorder date and a quantity of 0.  The MOQ and the cost, empty on the
    same row, do come out null. *)
Theorem missing_last_row_values :
  Main.compute_recommendations Sample.env Sample.empty_LeadTimeDays 30
  = Raise ValueError_nan_to_int
  /\ exists r,
       Main.compute_recommendations Sample.env Sample.empty_OnHand 30 = Ok [r]
       /\ current_stock r = NaN
       /\ reorder_by r = None
       /\ reorder_qty r = Finite 0
       /\ status r = GREEN
       /\ moq r = None
       /\ unit_cost r = None.
Proof.
  split; [vm_compute; reflexivity|].
  eexists. split; [vm_compute; reflexivity|]. repeat split; reflexivity.
Qed.

(** ** The 28-day window *)

Lemma fold_max_ge (l : list Z) (a : Z) :
  a <= fold_left Z.max l a /\ forall x, In x l -> x <= fold_left Z.max l a.
Proof.
  revert a. induction l as [|y l IH]; intro a; simpl.
  - split; [lia | intros x []].
  - destruct (IH (Z.max a y)) as (H1 & H2). split; [lia|].
    intros x [<- | Hx]; [lia | now apply H2].
Qed.

Lemma fold_max_In (l : list Z) (a : Z) :
  fold_left Z.max l a = a \/ In (fold_left Z.max l a) l.
Proof.
  revert a. induction l as [|y l IH]; intro a; simpl; [now left|].
  destruct (IH (Z.max a y)) as [E | Hin]; [|now right; right].
  rewrite E. destruct (Z.max_spec a y) as [(_ & ->) | (_ & ->)]; auto.
Qed.

(** [g["Date"].max()] of a frame with rows is the date of one of them, and no
    row is later. *)
Lemma max_Date_spec (g : list (Row Z)) :
  g <> [] ->
  exists m r,
    Pandas.max_Date g = Some m /\ In r g /\ Date r = m
    /\ forall x, In x g -> Date x <= m.
Proof.
  destruct g as [|r g]; [congruence|]. intros _. simpl.
  destruct (fold_max_ge (map Date g) (Date r)) as (H1 & H2).
  destruct (fold_max_In (map Date g) (Date r)) as [E | Hin].
  - exists (fold_left Z.max (map Date g) (Date r)), r.
    repeat split; auto.
    intros x [<- | Hx]; [exact H1 | apply H2; now apply in_map].
  - apply in_map_iff in Hin. destruct Hin as (r' & Er' & Hr').
    exists (fold_left Z.max (map Date g) (Date r)), r'.
    repeat split; auto.
    intros x [<- | Hx]; [exact H1 | apply H2; now apply in_map].
Qed.

Lemma insert_key_In {K : Type} (cmp : K -> K -> comparison) (k x : K) (l : list K) :
  In x (Pandas.insert_key cmp k l) -> x = k \/ In x l.
Proof.
  induction l as [|y l IH]; simpl.
  - intros [<- | []]. now left.
  - destruct (cmp k y); simpl; intuition (subst; auto).
Qed.

Lemma unique_sorted_In {K : Type} (cmp : K -> K -> comparison) (x : K) (ks : list K) :
  In x (Pandas.unique_sorted cmp ks) -> In x ks.
Proof.
  induction ks as [|k ks IH]; simpl; [auto|].
  intro H. apply insert_key_In in H. destruct H as [-> | H]; auto.
Qed.

Lemma present_keys_In (k : string) (rs : list (Row Z)) :
  In k (Pandas.present_keys rs) -> exists r, In r rs /\ SKU r = Some k.
Proof.
  induction rs as [|r rs IH]; simpl; [intros []|].
  destruct (SKU r) as [s|] eqn:E.
  - intros [<- | H]; [exists r; auto|].
    destruct (IH H) as (r' & ? & ?). exists r'. auto.
  - intro H. destruct (IH H) as (r' & ? & ?). exists r'. auto.
Qed.

(** A group of [groupby("SKU")] has at least one row. *)
Lemma groupby_SKU_nonempty (rs : list (Row Z)) (k : string) (g : list (Row Z)) :
  In (k, g) (Pandas.groupby_SKU rs) -> g <> [].
Proof.
  unfold Pandas.groupby_SKU. rewrite in_map_iff.
  intros (k' & E & Hk). inversion E; subst; clear E.
  apply unique_sorted_In, present_keys_In in Hk.
  destruct Hk as (r & Hr & Es).
  assert (Hin : In r (filter (Pandas.SKU_is k) rs)).
  { apply filter_In. split; [exact Hr|].
    unfold Pandas.SKU_is. rewrite Es. apply String.eqb_refl. }
  intro E. rewrite E in Hin. destruct Hin.
Qed.

Lemma insert_by_Date_nonempty (r : Row Z) (l : list (Row Z)) :
  Pandas.insert_by_Date r l <> [].
Proof. destruct l; simpl; [|destruct (_ <? _)]; discriminate. Qed.

Lemma sort_values_Date_nonempty (g : list (Row Z)) :
  g <> [] -> Pandas.sort_values_Date g <> [].
Proof.
  destruct g as [|r g]; [congruence|]. intros _. simpl.
  apply insert_by_Date_nonempty.
Qed.

Lemma recent_window_max_row (g : list (Row Z)) :
  g <> [] ->
  exists m r,
    Pandas.max_Date g = Some m /\ In r g /\ Date r = m
    /\ In r (Main.recent_window g).
Proof.
  intro Hg. destruct (max_Date_spec g Hg) as (m & r & Em & Hr & Ed & _).
  exists m, r. repeat split; auto.
  unfold Main.recent_window. apply filter_In. split; [exact Hr|].
  rewrite Em. cbn [Pandas.minus_days option_map Pandas.Date_ge].
  apply Z.leb_le. unfold Pandas.Timedelta_days, Pandas.ns_per_day. lia.
Qed.

(** C8.  In a group with rows, the row that carries the latest date passes
    [Date >= max(Date) - 28 days], so the selection has a row and the fallback
    to the whole group changes nothing; and every group the engine iterates
    over, sorted, is such a group. *)
Theorem recent_window_nonempty (g : list (Row Z)) :
  g <> [] ->
  (exists m r,
      Pandas.max_Date g = Some m /\ In r g /\ Date r = m
      /\ In r (Main.recent_window g))
  /\ Main.recent_window g <> []
  /\ Main.recent_or_all g = Main.recent_window g
  /\ (forall rs k g',
         In (k, g') (Pandas.groupby_SKU rs) ->
         Main.recent_window (Pandas.sort_values_Date g') <> []).
Proof.
  assert (Hne : forall g0 : list (Row Z), g0 <> [] -> Main.recent_window g0 <> []).
  { intros g0 H0. destruct (recent_window_max_row g0 H0) as (m & r & _ & _ & _ & Hr).
    intro E. rewrite E in Hr. destruct Hr. }
  intro Hg. split; [now apply recent_window_max_row|].
  split; [now apply Hne|]. split.
  - unfold Main.recent_or_all.
    destruct (Main.recent_window g) eqn:E; [|reflexivity].
    exfalso. now apply (Hne g Hg).
  - intros rs k g' Hin. apply Hne, sort_values_Date_nonempty.
    eapply groupby_SKU_nonempty; eauto.
Qed.

Lemma recent_window_nonempty_witness :
  Pandas.dropna_Date Sample.four_rows <> []
  /\ Main.recent_window (Pandas.dropna_Date Sample.four_rows) <> [].
Proof.
  assert (H : Pandas.dropna_Date Sample.four_rows <> []) by (vm_compute; discriminate).
  split; [exact H|].
  exact (proj1 (proj2 (recent_window_nonempty _ H))).
Defined.

(** ** The two variants *)

Lemma for_each_ext {A B : Type} (f g : A -> result B) (l : list A) :
  (forall a, f a = g a) -> for_each f l = for_each g l.
Proof.
  intro H. induction l as [|a l IH]; simpl; [reflexivity|].
  now rewrite H, IH.
Qed.

Lemma ceil_to_moq_agree (qty : pyfloat) (moq : option Z) :
  Main._ceil_to_moq qty moq = AppMain._ceil_to_moq qty moq.
Proof.
  unfold Main._ceil_to_moq, AppMain._ceil_to_moq.
  destruct moq as [m|]; [|reflexivity].
  destruct (m <=? 0); [reflexivity|].
  destruct (Float.le qty (Finite 0)); reflexivity.
Qed.

Lemma sort_agree (recs : list Recommendation) :
  Main.sort_recs recs = AppMain.sort_by_key recs.
Proof.
  induction recs as [|r recs IH]; simpl; [reflexivity|].
  rewrite IH. generalize (AppMain.sort_by_key recs) as l.
  induction l as [|x l IHl]; simpl; [reflexivity|].
  unfold Main.key_lt, Main.sort_key, Main.order, AppMain.order in *.
  cbn [fst snd]. now rewrite IHl.
Qed.

Lemma trend_note_agree (g : list (Row Z)) :
  Main.trend_note_of g
  = (let d14 := Pandas.minus_days (Pandas.max_Date g) 14 in
     let d28 := Pandas.minus_days (Pandas.max_Date g) 28 in
     let recent14 := filter (Pandas.Date_ge d14) g in
     let prev14 := filter (fun r => Pandas.Date_lt d14 r && Pandas.Date_ge d28 r) g in
     if negb (Nat.eqb (List.length recent14) 0)
        && negb (Nat.eqb (List.length prev14) 0) then
       let r := Pandas.series_mean (map UnitsSold recent14) in
       let p := Pandas.series_mean (map UnitsSold prev14) in
       if Float.lt (Finite 0) p then
         let pct := Float.mul (Float.div (Float.sub r p) p) (Finite 100) in
         if Float.le (Finite 10) (Float.abs pct) then
           (" Demand changed ~" ++ Format.fixed 0 pct ++ "% vs prior 2 weeks.")%string
         else ""%string
       else ""%string
     else ""%string).
Proof.
  unfold Main.trend_note_of. cbv zeta.
  destruct (filter (Pandas.Date_ge _) g) as [|a l]; [reflexivity|].
  destruct (filter (fun r => _ && _) g) as [|b l']; reflexivity.
Qed.

Lemma avg_daily_agree (g : list (Row Z)) :
  Main.avg_daily_of g
  = (let recent_cutoff := Pandas.minus_days (Pandas.max_Date g) 28 in
     let recent := filter (Pandas.Date_ge recent_cutoff) g in
     let recent := match recent with [] => g | _ => recent end in
     let daily := Pandas.daily_UnitsSold recent in
     match daily with
     | [] => Finite 0
     | _ => Pandas.series_mean (map snd daily)
     end).
Proof.
  unfold Main.avg_daily_of, Main.recent_or_all, Main.recent_window. cbv zeta.
  destruct (filter _ g); reflexivity.
Qed.

(** C9.  The function of [src/backend/main.py], run in a process whose clock
    shows [today], and the function of [src/backend/app/main.py] run on that
    day, raise the same exception or return the same list, for every table
    and every horizon. *)
Theorem variants_agree (env : Main.Process) (df : DataFrame) (horizon_days : Z) :
  Main.compute_recommendations env df horizon_days
  = AppMain.compute_recommendations (Main.clock_today env) df horizon_days.
Proof.
  unfold Main.compute_recommendations, AppMain.compute_recommendations.
  unfold Main.missing_columns. cbv zeta.
  change AppMain.REQUIRED_COLS with Main.REQUIRED_COLS.
  destruct (filter _ Main.REQUIRED_COLS) as [|c cs]; [|reflexivity].
  cbn [List.length Nat.eqb negb].
  match goal with
  | |- bind (for_each ?F ?l) _ = bind (for_each ?G ?l) _ =>
      rewrite (for_each_ext G F l)
  end.
  - destruct (for_each _ _); cbn [bind]; [|reflexivity]. now rewrite sort_agree.
  - intros [k g]. cbn [fst snd]. unfold Main.loop_body.
    destruct (Pandas.iloc_last _) as [last|]; cbn [bind]; [|reflexivity].
    destruct (Float.to_int _) as [lead_time|]; cbn [bind]; [|reflexivity].
    assert (Hmoq : forall v,
               (if Pandas.notna_not_None v then
                  match v with
                  | Some x => m <- Float.to_int x ;; Ok (Some m)
                  | None => Ok None
                  end
                else Ok None) = Main.moq_of v).
    { intros [x|]; [|reflexivity]. unfold Main.moq_of. cbn.
      destruct (Float.isnan x); reflexivity. }
    rewrite Hmoq.
    destruct (Main.moq_of _) as [moq|]; cbn [bind]; [|reflexivity].
    rewrite <- ceil_to_moq_agree.
    rewrite avg_daily_agree. cbv zeta.
    destruct (Main._ceil_to_moq _ _) as [reorder_qty|]; cbn [bind]; [|reflexivity].
    unfold Main.days_until_stockout_of, Main.reorder_by_of.
    match goal with
    | |- bind ?m _ = bind ?m' _ =>
        change m' with m; destruct m as [reorder_by|]; cbn [bind]; [|reflexivity]
    end.
    unfold Main.status_and_reason. rewrite trend_note_agree. cbv zeta.
    destruct (Float.eqb _ (Finite 0)); reflexivity.
Qed.

(** ** Determinism *)



Lemma column_guard_witness :
  Main.compute_recommendations Sample.env Sample.lacks_two 30
  = Raise (ValueError_missing_columns ["Date"; "OnHand"]%string)
  /\ forall missing,
       Main.compute_recommendations Sample.env (Sample.stock 8) 30
       <> Raise (ValueError_missing_columns missing).
Proof.
  split.
  - refine (proj1 (proj2 (column_guard Sample.env Sample.lacks_two 30)) _).
    exists "Date"%string. split; [vm_compute; tauto|].
    vm_compute. intuition discriminate.
  - refine (proj2 (proj2 (column_guard Sample.env (Sample.stock 8) 30)) _).
    intros c Hc. vm_compute in Hc. vm_compute. tauto.
Defined.

(** ** Further properties of the engine *)

(** A worked example: 30 daily rows of 2 units, 10 in
    stock, lead time 5, horizon 30. *)
Theorem end_to_end_example :
  exists r,
    Main.compute_recommendations Sample.env Sample.thirty_days 30 = Ok [r]
    /\ sku r = "A1"%string
    /\ avg_daily_sales r = Finite 2
    /\ forecast_30d r = Finite 60
    /\ reorder_qty r = Finite 60
    /\ status r = RED
    /\ reorder_by r = Some (Main.clock_today Sample.env).
Proof.
  eexists. split; [vm_compute; reflexivity|]. repeat split; reflexivity.
Qed.

Lemma ceil_to_moq_nonneg (q : pyfloat) (moq : option Z) (r : pyfloat) :
  Main._ceil_to_moq q moq = Ok r -> Float.le (Finite 0) r = true.
Proof.
  unfold Main._ceil_to_moq.
  destruct moq as [m|]; [|intro H; inversion H; apply Float_max_ge0].
  destruct (Z.leb_spec m 0) as [_|Hm]; [intro H; inversion H; apply Float_max_ge0|].
  destruct (Float.le q (Finite 0)) eqn:Hq; [intro H; inversion H; reflexivity|].
  destruct q as [| |a|]; unfold Float.of_int at 1;
    cbn [Float.div Float.sign Float.sign_mul].
  - discriminate.
  - destruct (Qcompare (inject_Z m) 0); discriminate.
  - assert (HM0 : Qeq_bool (inject_Z m) 0 = false).
    { destruct (Qeq_bool (inject_Z m) 0) eqn:E; [|reflexivity].
      apply Qeq_bool_iff in E. unfold Qeq in E. simpl in E. lia. }
    rewrite HM0. cbn [Float.ceil bind]. intro H. inversion H; subst; clear H.
    cbn [Float.le] in *. apply Qle_bool_false in Hq. apply Qle_bool_iff.
    destruct (ceiling_multiple a m Hm) as (Hge & _).
    apply Qlt_le_weak. eapply Qlt_le_trans; eauto.
  - destruct (Qcompare (inject_Z m) 0); discriminate.
Qed.

(** X2.  The quantity to reorder is a number, never NaN, and never negative. *)
Theorem reorder_qty_nonnegative (env : Main.Process) (df : DataFrame)
        (horizon_days : Z) (recs : list Recommendation) (rec : Recommendation) :
  Main.compute_recommendations env df horizon_days = Ok recs ->
  In rec recs ->
  Float.le (Finite 0) (reorder_qty rec) = true.
Proof.
  intros H Hin.
  destruct (compute_recommendations_In _ _ _ _ _ H Hin) as (k & g & _ & Hb).
  apply loop_body_Ok in Hb.
  destruct Hb as (last & _ & _ & _ & _ & _ & _ & _ & _ & Hq & _).
  eapply ceil_to_moq_nonneg; eauto.
Qed.

Lemma reorder_qty_nonnegative_witness :
  exists r,
    Main.compute_recommendations Sample.env Sample.returns 30 = Ok [r]
    /\ Float.le (Finite 0) (reorder_qty r) = true.
Proof.
  eexists. split; [vm_compute; reflexivity|].
  refine (reorder_qty_nonnegative Sample.env Sample.returns 30 _ _ _ _).
  - vm_compute. reflexivity.
  - left. reflexivity.
Defined.

(** *** Tables without gaps *)









Lemma insert_by_Date_perm (r : Row Z) (l : list (Row Z)) :
  Permutation (Pandas.insert_by_Date r l) (r :: l).
Proof.
  induction l as [|x l IH]; simpl; [reflexivity|].
  destruct (Date x <? Date r); [|reflexivity].
  rewrite IH. apply perm_swap.
Qed.

Lemma sort_values_Date_perm (g : list (Row Z)) :
  Permutation (Pandas.sort_values_Date g) g.
Proof.
  induction g as [|r g IH]; simpl; [reflexivity|].
  rewrite insert_by_Date_perm. now constructor.
Qed.

Lemma iloc_last_In (g : list (Row Z)) :
  g <> [] -> exists last, Pandas.iloc_last g = Ok last /\ In last g.
Proof.
  intro Hg. unfold Pandas.iloc_last. destruct (rev g) as [|r l] eqn:E.
  - apply (f_equal (@rev _)) in E. rewrite rev_involutive in E. now subst.
  - exists r. split; [reflexivity|]. apply in_rev. rewrite E. now left.
Qed.












(** ** The keys of a [groupby] *)

Section KeyOrder.

Variable K : Type.
Variable cmp : K -> K -> comparison.
Hypothesis cmp_eq : forall a b, cmp a b = Eq -> a = b.
Hypothesis cmp_refl : forall a, cmp a a = Eq.
Hypothesis cmp_gt : forall a b, cmp a b = Gt -> cmp b a = Lt.
Hypothesis cmp_trans : forall a b c, cmp a b = Lt -> cmp b c = Lt -> cmp a c = Lt.

Let lt (a b : K) : Prop := cmp a b = Lt.

Lemma insert_key_complete (k x : K) (l : list K) :
  x = k \/ In x l -> In x (Pandas.insert_key cmp k l).
Proof.
  induction l as [|y l IH]; simpl.
  - intros [-> | []]. now left.
  - destruct (cmp k y) eqn:E; simpl.
    + apply cmp_eq in E. subst y. intros [-> | H]; auto.
    + intros [-> | H]; auto.
    + intros [-> | [-> | H]]; auto.
Qed.

Lemma insert_key_sorted (k : K) (l : list K) :
  StronglySorted lt l -> StronglySorted lt (Pandas.insert_key cmp k l).
Proof.
  induction 1 as [|y l S IH Hy]; simpl; [repeat constructor|].
  destruct (cmp k y) eqn:E.
  - now constructor.
  - constructor; [now constructor|]. constructor; [exact E|].
    apply Forall_forall. intros z Hz.
    exact (cmp_trans _ _ _ E (proj1 (Forall_forall _ _) Hy z Hz)).
  - constructor; [exact IH|]. apply Forall_forall. intros z Hz.
    apply insert_key_In in Hz. destruct Hz as [-> | Hz].
    + now apply cmp_gt.
    + exact (proj1 (Forall_forall _ _) Hy z Hz).
Qed.

Lemma unique_sorted_sorted (ks : list K) :
  StronglySorted lt (Pandas.unique_sorted cmp ks).
Proof.
  induction ks as [|k ks IH]; simpl; [constructor|].
  now apply insert_key_sorted.
Qed.

Lemma unique_sorted_complete (x : K) (ks : list K) :
  In x ks -> In x (Pandas.unique_sorted cmp ks).
Proof.
  induction ks as [|k ks IH]; simpl; [auto|].
  intros [-> | H]; apply insert_key_complete; auto.
Qed.

Lemma sorted_NoDup (l : list K) : StronglySorted lt l -> NoDup l.
Proof.
  induction 1 as [|y l S IH Hy]; constructor; [|exact IH].
  intro Hin. assert (E := proj1 (Forall_forall _ _) Hy y Hin).
  unfold lt in E. rewrite cmp_refl in E. discriminate E.
Qed.

Lemma unique_sorted_NoDup (ks : list K) : NoDup (Pandas.unique_sorted cmp ks).
Proof. apply sorted_NoDup, unique_sorted_sorted. Qed.

End KeyOrder.

Lemma String_compare_refl (a : string) : String.compare a a = Eq.
Proof. now apply OrderedTypeEx.String_as_OT.cmp_eq. Qed.

Lemma String_compare_gt (a b : string) :
  String.compare a b = Gt -> String.compare b a = Lt.
Proof. intro H. rewrite String.compare_antisym, H. reflexivity. Qed.

Lemma String_compare_trans (a b c : string) :
  String.compare a b = Lt -> String.compare b c = Lt -> String.compare a c = Lt.
Proof.
  intros H1 H2. apply OrderedTypeEx.String_as_OT.cmp_lt.
  apply OrderedTypeEx.String_as_OT.cmp_lt in H1, H2.
  eapply OrderedTypeEx.String_as_OT.lt_trans; eauto.
Qed.


Lemma SKU_keys_NoDup (rs : list (Row Z)) :
  NoDup (Pandas.unique_sorted String.compare (Pandas.present_keys rs)).
Proof.
  apply unique_sorted_NoDup.
  - exact String_compare_refl.
  - exact String_compare_gt.
  - exact String_compare_trans.
Qed.

(** ** One recommendation for each SKU *)

Lemma present_keys_complete (k : string) (rs : list (Row Z)) (r : Row Z) :
  In r rs -> SKU r = Some k -> In k (Pandas.present_keys rs).
Proof.
  induction rs as [|x rs IH]; simpl; [intros []|].
  intros [-> | H] E.
  - rewrite E. now left.
  - destruct (SKU x); [right|]; auto.
Qed.

Lemma dropna_Date_In (rs : list (Row (option Z))) (r' : Row Z) :
  In r' (Pandas.dropna_Date rs)
  <-> exists r,
        In r rs /\ Date r = Some (Date r')
        /\ r' = mkRow (SKU r) (Date r') (UnitsSold r) (OnHand r) (LeadTimeDays r)
                      (MOQ r) (Cost r).
Proof.
  induction rs as [|x rs IH]; simpl.
  - split; [intros [] | intros (r & [] & _)].
  - destruct (Date x) as [t|] eqn:E; simpl; rewrite IH; split.
    + intros [<- | (r & Hr & Hd & Hf)].
      * exists x. simpl. rewrite E. auto.
      * exists r. auto.
    + intros (r & [-> | Hr] & Hd & Hf).
      * left. rewrite E in Hd. inversion Hd; subst t. now rewrite Hf.
      * right. exists r. auto.
    + intros (r & Hr & Hd & Hf). exists r. auto.
    + intros (r & [-> | Hr] & Hd & Hf); [congruence|]. exists r. auto.
Qed.

Lemma groupby_SKU_keys (rs : list (Row Z)) :
  map fst (Pandas.groupby_SKU rs)
  = Pandas.unique_sorted String.compare (Pandas.present_keys rs).
Proof.
  unfold Pandas.groupby_SKU. rewrite map_map. cbn [fst]. apply map_id.
Qed.

Lemma for_each_loop_body_skus today cols h (groups : list (string * list (Row Z)))
      (recs : list Recommendation) :
  for_each (fun kg => Main.loop_body today cols h (fst kg) (snd kg)) groups = Ok recs ->
  map sku recs = map fst groups.
Proof.
  intro H. apply for_each_Ok in H.
  induction H as [|kg rec l bs Hb _ IH]; simpl; [reflexivity|].
  apply loop_body_Ok in Hb. destruct Hb as (_ & _ & Hk & _).
  now rewrite Hk, IH.
Qed.

(** What the function returns: the loop's list, sorted. *)
Lemma compute_recommendations_Ok env df h recs :
  Main.compute_recommendations env df h = Ok recs ->
  exists recs0,
    for_each (fun kg => Main.loop_body (Main.clock_today env) (columns df) h
                                       (fst kg) (snd kg))
             (Pandas.groupby_SKU (Pandas.dropna_Date (rows df))) = Ok recs0
    /\ recs = Main.sort_recs recs0.
Proof.
  unfold Main.compute_recommendations. cbv zeta.
  destruct (Main.missing_columns df); [|discriminate].
  intro H. bind_Ok H. inversion H. eauto.
Qed.

(** X3.  The list returned holds exactly one recommendation for each distinct
    SKU that has a row with a parseable date: no SKU twice, none left out,
    none made up. *)
Theorem one_recommendation_per_SKU (env : Main.Process) (df : DataFrame)
        (horizon_days : Z) (recs : list Recommendation) :
  Main.compute_recommendations env df horizon_days = Ok recs ->
  NoDup (map sku recs)
  /\ forall k,
       In k (map sku recs)
       <-> exists r, In r (rows df) /\ SKU r = Some k /\ Date r <> None.
Proof.
  intro H. apply compute_recommendations_Ok in H.
  destruct H as (recs0 & Hf & ->).
  apply for_each_loop_body_skus in Hf. rewrite groupby_SKU_keys in Hf.
  assert (P : Permutation (map sku (Main.sort_recs recs0)) (map sku recs0))
    by (apply Permutation_map, sort_recs_perm).
  split.
  - apply (Permutation_NoDup (Permutation_sym P)). rewrite Hf. apply SKU_keys_NoDup.
  - intro k. split.
    + intro Hk. apply (Permutation_in _ P) in Hk. rewrite Hf in Hk.
      apply unique_sorted_In, present_keys_In in Hk.
      destruct Hk as (r' & Hr' & Es). apply dropna_Date_In in Hr'.
      destruct Hr' as (r & Hr & Hd & Hfields). exists r.
      split; [exact Hr|]. split; [|congruence].
      rewrite Hfields in Es. exact Es.
    + intros (r & Hr & Es & Hd).
      apply (Permutation_in _ (Permutation_sym P)). rewrite Hf.
      destruct (Date r) as [t|] eqn:Et; [|congruence].
      apply (unique_sorted_complete _ String.compare String.compare_eq_iff
                                    String_compare_refl).
      apply (present_keys_complete k _
               (mkRow (SKU r) t (UnitsSold r) (OnHand r) (LeadTimeDays r)
                      (MOQ r) (Cost r))); [|exact Es].
      apply dropna_Date_In. exists r. auto.
Qed.

Lemma one_recommendation_per_SKU_witness :
  exists recs,
    Main.compute_recommendations Sample.env Sample.four 30 = Ok recs
    /\ NoDup (map sku recs).
Proof.
  eexists. split; [vm_compute; reflexivity|].
  refine (proj1 (one_recommendation_per_SKU Sample.env Sample.four 30 _ _)).
  vm_compute. reflexivity.
Defined.

(** ** Rows that are not used *)






(** ** The reorder date *)








(** ** Quantities under a minimum order quantity *)




(** ** Ties in the output order *)
















(** ** The row the snapshot is taken from *)

Lemma groupby_SKU_In (rs : list (Row Z)) (k : string) (g : list (Row Z)) :
  In (k, g) (Pandas.groupby_SKU rs) -> g = filter (Pandas.SKU_is k) rs.
Proof.
  unfold Pandas.groupby_SKU. rewrite in_map_iff.
  intros (k' & E & _). now inversion E.
Qed.

Lemma insert_by_Date_sorted (r : Row Z) (l : list (Row Z)) :
  StronglySorted (fun a b => Date a <= Date b) l ->
  StronglySorted (fun a b => Date a <= Date b) (Pandas.insert_by_Date r l).
Proof.
  induction 1 as [|x l S IH Hx]; simpl; [repeat constructor|].
  destruct (Z.ltb_spec (Date x) (Date r)) as [Hlt | Hge].
  - constructor; [exact IH|]. apply Forall_forall. intros y Hy.
    apply (Permutation_in _ (insert_by_Date_perm r l)) in Hy.
    destruct Hy as [<- | Hy]; [lia|].
    exact (proj1 (Forall_forall _ _) Hx y Hy).
  - constructor; [now constructor|]. constructor; [exact Hge|].
    apply Forall_forall. intros y Hy.
    assert (H := proj1 (Forall_forall _ _) Hx y Hy). cbv beta in H. lia.
Qed.

Lemma sort_values_Date_sorted (g : list (Row Z)) :
  StronglySorted (fun a b => Date a <= Date b) (Pandas.sort_values_Date g).
Proof.
  induction g as [|r g IH]; simpl; [constructor|].
  now apply insert_by_Date_sorted.
Qed.

Lemma sorted_last_greatest (l : list (Row Z)) (x : Row Z) :
  StronglySorted (fun a b => Date a <= Date b) l ->
  Pandas.iloc_last l = Ok x ->
  forall y, In y l -> Date y <= Date x.
Proof.
  unfold Pandas.iloc_last. intros S E y Hy.
  destruct (rev l) as [|z l'] eqn:Er; [discriminate E|]. inversion E; subst z.
  apply (f_equal (@rev _)) in Er. rewrite rev_involutive in Er. simpl in Er.
  subst l. apply in_app_or in Hy. destruct Hy as [Hy | [<- | []]]; [|lia].
  clear E. induction (rev l') as [|a m IH]; [destruct Hy|].
  simpl in S. inversion S as [|? ? S' F]; subst.
  destruct Hy as [<- | Hy]; [|now apply IH].
  apply (proj1 (Forall_forall _ _) F). apply in_or_app. right. now left.
Qed.

(** The last row after sorting is the one row that is later than all others. *)
Lemma iloc_last_latest (g : list (Row Z)) (r : Row Z) :
  In r g ->
  (forall x, In x g -> x = r \/ Date x < Date r) ->
  Pandas.iloc_last (Pandas.sort_values_Date g) = Ok r.
Proof.
  intros Hr Hmax.
  assert (Hne : g <> []) by (intro E; rewrite E in Hr; destruct Hr).
  destruct (iloc_last_In _ (sort_values_Date_nonempty g Hne)) as (last & El & Hin).
  rewrite El. f_equal.
  assert (Hge := sorted_last_greatest _ _ (sort_values_Date_sorted g) El r
                   (Permutation_in _ (Permutation_sym (sort_values_Date_perm g)) Hr)).
  apply (Permutation_in _ (sort_values_Date_perm g)) in Hin.
  destruct (Hmax last Hin) as [E | Hlt]; [exact E | lia].
Qed.




(** ** One missing lead time *)

Lemma for_each_In_Raise {A B : Type} (body : A -> result B) (l : list A)
      (a : A) (e : exn) :
  In a l -> body a = Raise e ->
  exists a' e', In a' l /\ body a' = Raise e' /\ for_each body l = Raise e'.
Proof.
  induction l as [|x l IH]; [intros []|]. intros Hin Ha. simpl.
  destruct (body x) as [b|ex] eqn:Ex.
  - destruct Hin as [-> | Hin]; [congruence|].
    destruct (IH Hin Ha) as (a' & e' & Hin' & Ha' & Hf).
    exists a', e'. rewrite Hf. simpl. auto.
  - exists x, ex. simpl. auto.
Qed.

Lemma groupby_SKU_complete (rs : list (Row Z)) (r : Row Z) (k : string) :
  In r rs -> SKU r = Some k ->
  In (k, filter (Pandas.SKU_is k) rs) (Pandas.groupby_SKU rs).
Proof.
  intros Hr Hk. unfold Pandas.groupby_SKU.
  apply (in_map (fun k => (k, filter (Pandas.SKU_is k) rs))).
  apply (unique_sorted_complete _ String.compare String.compare_eq_iff
                                String_compare_refl).
  eapply present_keys_complete; eauto.
Qed.

(** X10.  One missing lead time spoils the whole report: when the latest row
    of one SKU has no [LeadTimeDays] value, the call raises, with an exception
    that is not the one of the column guard, and returns no recommendation
    for any SKU. *)
Theorem missing_lead_time_aborts (env : Main.Process) (df : DataFrame)
        (horizon_days : Z) (r : Row (option Z)) (k : string) (t : Z) :
  (forall c, In c Main.REQUIRED_COLS -> In c (columns df)) ->
  In r (rows df) -> SKU r = Some k -> Date r = Some t ->
  LeadTimeDays r = NaN ->
  (forall x tx, In x (rows df) -> SKU x = Some k -> Date x = Some tx ->
                x = r \/ tx < t) ->
  exists e,
    Main.compute_recommendations env df horizon_days = Raise e
    /\ is_missing_columns e = false.
Proof.
  intros Hcols Hr Hk Ht Hnan Hmax.
  unfold Main.compute_recommendations. cbv zeta.
  destruct (Main.missing_columns df) as [|m ms] eqn:Em.
  2:{ exfalso. assert (Hm : In m (Main.missing_columns df)) by (rewrite Em; now left).
      apply missing_columns_In in Hm. destruct Hm as (Hreq & Habs).
      exact (Habs (Hcols m Hreq)). }
  set (r' := mkRow (SKU r) t (UnitsSold r) (OnHand r) (LeadTimeDays r) (MOQ r)
                   (Cost r)).
  set (rs := Pandas.dropna_Date (rows df)).
  assert (Hr' : In r' rs) by (apply dropna_Date_In; exists r; auto).
  assert (Hg := groupby_SKU_complete rs r' k Hr' Hk).
  assert (Hlast : Pandas.iloc_last
                    (Pandas.sort_values_Date (filter (Pandas.SKU_is k) rs)) = Ok r').
  { apply iloc_last_latest.
    - apply filter_In. split; [exact Hr'|].
      unfold Pandas.SKU_is, r'. cbn [SKU]. rewrite Hk. apply String.eqb_refl.
    - intros x Hx. apply filter_In in Hx.
      destruct Hx as (Hx & Hxk). apply dropna_Date_In in Hx.
      destruct Hx as (x0 & Hx0 & Hd & Hf).
      unfold Pandas.SKU_is in Hxk. rewrite Hf in Hxk. cbn [SKU] in Hxk.
      destruct (SKU x0) as [s|] eqn:Es; [|discriminate Hxk].
      apply String.eqb_eq in Hxk. subst s.
      destruct (Hmax x0 (Date x) Hx0 Es Hd) as [-> | Hlt]; [|now right].
      left. rewrite Ht in Hd. inversion Hd as [Hd'].
      rewrite Hf. unfold r'. rewrite <- Hd', Es. reflexivity. }
  assert (Hbody : Main.loop_body (Main.clock_today env) (columns df) horizon_days k
                    (filter (Pandas.SKU_is k) rs) = Raise ValueError_nan_to_int).
  { eapply loop_body_missing_lead_time; [exact Hlast | | exact Hnan].
    apply has_column_In, Hcols. cbv. tauto. }
  destruct (for_each_In_Raise
              (fun kg => Main.loop_body (Main.clock_today env) (columns df)
                                        horizon_days (fst kg) (snd kg))
              _ _ _ Hg Hbody) as (a' & e' & _ & Ha' & Hf).
  exists e'. rewrite Hf. split; [reflexivity|].
  eapply loop_body_Raise; eauto.
Qed.

Lemma missing_lead_time_aborts_witness :
  exists e,
    Main.compute_recommendations Sample.env Sample.empty_LeadTimeDays 30 = Raise e
    /\ is_missing_columns e = false.
Proof.
  pose (row := mkRow (Some "A1"%string) (Sample.at_day 20000) (Finite 2)
                     (Finite 10) NaN NaN NaN).
  apply (missing_lead_time_aborts Sample.env Sample.empty_LeadTimeDays 30 row
           "A1"%string (20000 * Pandas.ns_per_day)).
  - intros c Hc. vm_compute in Hc. vm_compute. tauto.
  - left. reflexivity.
  - reflexivity.
  - reflexivity.
  - reflexivity.
  - intros x tx [<- | []] _ _. now left.
Defined.

(** ** The average daily sales *)

















(** ** The bearer-token check *)

Lemma is_empty_true (s : string) : Auth.is_empty s = true <-> s = EmptyString.
Proof. destruct s; simpl; split; congruence. Qed.

Lemma bearer_split (auth : string) :
  String.prefix "Bearer " auth = true ->
  exists rest,
    auth = ("Bearer " ++ rest)%string
    /\ nth_error (Auth.split_space_1 auth) 1 = Some rest.
Proof.
  intro H.
  do 7 (destruct auth as [|c auth]; [discriminate H|];
        cbn [String.prefix] in H;
        destruct (ascii_dec _ c) as [<- | ]; [|discriminate H]).
  exists auth. split; [reflexivity|]. reflexivity.
Qed.

Lemma bearer_prefix (rest : string) :
  String.prefix "Bearer " ("Bearer " ++ rest) = true
  /\ Auth.is_empty ("Bearer " ++ rest) = false.
Proof.
  split; [|reflexivity]. cbn [String.prefix String.append].
  repeat match goal with
         | |- context [ascii_dec ?a ?a] =>
             destruct (ascii_dec a a) as [_ | N]; [|exfalso; now apply N]
         end.
  destruct rest; reflexivity.
Qed.

Section Dependency_facts.

Variables Key Payload Value : Type.
Variable get_signing_key_from_jwt : string -> string -> Auth.lib_result Key.
Variable jwt_decode : string -> Key -> string -> Auth.lib_result Payload.
Variable payload_get_sub : Payload -> option Value.
Variable truthy : Value -> bool.

Let verify :=
  Auth.verify_clerk_token Key Payload Value get_signing_key_from_jwt jwt_decode
                          payload_get_sub truthy.

(** X12.  Whatever the headers, the configuration, the cache, the timer and
    the library do, [verify_clerk_token] returns an identity or raises
    [HTTPException] with one of seven fixed answers: its [split(...)[1]]
    never fails, and the 500 that [_get_jwks_client] raises for a missing
    [CLERK_JWKS_URL] is not among them, the only 500 being the one for a
    missing [CLERK_ISSUER]. *)
Theorem verify_clerk_token_answers (CLERK_JWKS_URL CLERK_ISSUER : string)
        (cache : Auth.TTLCache) (t_in t_set t_get : Q)
        (authorization x_org_id : option string) :
  match fst (verify CLERK_JWKS_URL CLERK_ISSUER cache t_in t_set t_get
                    authorization x_org_id) with
  | Auth.Returns _ => True
  | Auth.Raises_HTTPException status_code detail =>
      In (status_code, detail) verify_errors
      /\ (status_code = 500 -> CLERK_ISSUER = EmptyString)
  | Auth.Raises_IndexError => False
  end.
Proof.
  unfold verify, Auth.verify_clerk_token, verify_errors.
  destruct authorization as [auth|];
    [|cbn; split; [auto 10 | discriminate]].
  destruct (Auth.is_empty auth || negb (String.prefix "Bearer " auth)) eqn:Eb;
    [cbn; split; [auto 10 | discriminate]|].
  apply orb_false_iff in Eb. destruct Eb as (_ & Eb).
  apply negb_false_iff in Eb. destruct (bearer_split auth Eb) as (rest & _ & ->).
  cbv zeta.
  destruct (Auth.is_empty (Auth.strip rest)); [cbn; split; [auto 10 | discriminate]|].
  destruct (Auth.is_empty CLERK_ISSUER) eqn:Ei.
  { cbn. split; [auto 10|]. intros _. now apply is_empty_true. }
  destruct x_org_id as [org|]; [|cbn; split; [auto 10 | discriminate]].
  destruct (Auth.is_empty org); [cbn; split; [auto 10 | discriminate]|].
  destruct (Auth.try_block _ _ _ _ _ _ _ _ _ _ _) as [[payload | e] cache'].
  - destruct (payload_get_sub payload) as [sub|]; [destruct (truthy sub)|]; cbn;
      first [exact I | split; [auto 10 | discriminate]].
  - destruct e; cbn; (split; [auto 10 | discriminate]).
Qed.

(** X13.  A missing [CLERK_JWKS_URL] does not show as a server error: with no
    live client in the cache [_get_jwks_client] raises its 500, but it does so
    inside the [try] block, whose [except Exception] turns it into 401
    "Invalid token" for every request that got that far; the cache stays as
    it was. *)
Theorem jwks_url_missing_is_masked (CLERK_ISSUER : string) (cache : Auth.TTLCache)
        (t_in t_set t_get : Q) (rest org : string) :
  Auth.contains cache t_in = false ->
  Auth.is_empty (Auth.strip rest) = false ->
  Auth.is_empty CLERK_ISSUER = false ->
  Auth.is_empty org = false ->
  Auth._get_jwks_client "" cache t_in t_set t_get
  = (inr (Auth.HTTPException 500 "Server misconfigured: CLERK_JWKS_URL missing"),
     cache)
  /\ verify "" CLERK_ISSUER cache t_in t_set t_get
            (Some ("Bearer " ++ rest)%string) (Some org)
     = (Auth.Raises_HTTPException 401 "Invalid token", cache).
Proof.
  intros Hc Ht Hi Ho.
  assert (Hg : Auth._get_jwks_client "" cache t_in t_set t_get
               = (inr (Auth.HTTPException
                         500 "Server misconfigured: CLERK_JWKS_URL missing"),
                  cache)).
  { unfold Auth._get_jwks_client. rewrite Hc. reflexivity. }
  split; [exact Hg|].
  unfold verify, Auth.verify_clerk_token.
  destruct (bearer_prefix rest) as (Hp & He). rewrite Hp, He. cbn [orb negb].
  destruct (bearer_split _ Hp) as (rest' & Er & ->).
  assert (rest' = rest) by (cbn in Er; now inversion Er). subst rest'.
  cbv zeta. rewrite Ht, Hi, Ho. unfold Auth.try_block. rewrite Hg. reflexivity.
Qed.

(** X14.  An identity is returned only for a request whose [Authorization]
    header is "Bearer " followed by a token that is not blank, whose
    [X-Org-Id] header is not empty, under a configured issuer, and whose
    token, stripped, the library accepted: a signing key was found for it,
    [jwt.decode] returned the claims under that key and that issuer, and the
    claims hold a truthy [sub].  The identity carries that [sub], the
    [X-Org-Id] header as it came, and those claims. *)
Theorem verify_clerk_token_returns (CLERK_JWKS_URL CLERK_ISSUER : string)
        (cache cache' : Auth.TTLCache) (t_in t_set t_get : Q)
        (authorization x_org_id : option string)
        (id : Auth.identity Payload Value) :
  verify CLERK_JWKS_URL CLERK_ISSUER cache t_in t_set t_get authorization x_org_id
  = (Auth.Returns id, cache') ->
  exists rest client key,
    authorization = Some ("Bearer " ++ rest)%string
    /\ Auth.strip rest <> EmptyString
    /\ CLERK_ISSUER <> EmptyString
    /\ x_org_id = Some (Auth.org_id _ _ id)
    /\ Auth.org_id _ _ id <> EmptyString
    /\ Auth._get_jwks_client CLERK_JWKS_URL cache t_in t_set t_get
       = (inl client, cache')
    /\ get_signing_key_from_jwt client (Auth.strip rest) = Auth.LReturn key
    /\ jwt_decode (Auth.strip rest) key CLERK_ISSUER
       = Auth.LReturn (Auth.claims _ _ id)
    /\ payload_get_sub (Auth.claims _ _ id) = Some (Auth.user_id _ _ id)
    /\ truthy (Auth.user_id _ _ id) = true.
Proof.
  unfold verify, Auth.verify_clerk_token. intro H.
  destruct authorization as [auth|]; [|discriminate H].
  destruct (Auth.is_empty auth || negb (String.prefix "Bearer " auth)) eqn:Eb;
    [discriminate H|].
  apply orb_false_iff in Eb. destruct Eb as (_ & Eb).
  apply negb_false_iff in Eb. destruct (bearer_split auth Eb) as (rest & -> & Er).
  rewrite Er in H. cbv zeta in H.
  destruct (Auth.is_empty (Auth.strip rest)) eqn:Et; [discriminate H|].
  destruct (Auth.is_empty CLERK_ISSUER) eqn:Ei; [discriminate H|].
  destruct x_org_id as [org|]; [|discriminate H].
  destruct (Auth.is_empty org) eqn:Eo; [discriminate H|].
  unfold Auth.try_block in H.
  destruct (Auth._get_jwks_client CLERK_JWKS_URL cache t_in t_set t_get)
    as [[client | e] c1] eqn:Eg; [|destruct e; discriminate H].
  destruct (get_signing_key_from_jwt client (Auth.strip rest)) as [key| |] eqn:Ek;
    try discriminate H.
  destruct (jwt_decode (Auth.strip rest) key CLERK_ISSUER) as [payload| |] eqn:Ed;
    try discriminate H.
  destruct (payload_get_sub payload) as [sub|] eqn:Es; [|discriminate H].
  destruct (truthy sub) eqn:Etr; [|discriminate H].
  inversion H; subst; clear H. cbn [Auth.org_id Auth.claims Auth.user_id].
  exists rest, client, key.
  repeat split; auto; intro E; apply is_empty_true in E; congruence.
Qed.

End Dependency_facts.

Lemma jwks_url_missing_is_masked_witness :
  AuthSample.verify "" "https://issuer.example" None 0 0 0
                    (Some "Bearer good"%string) (Some "org_1"%string)
  = (Auth.Raises_HTTPException 401 "Invalid token", None).
Proof.
  refine (proj2 (jwks_url_missing_is_masked
                   string string string AuthSample.get_signing_key_from_jwt
                   AuthSample.jwt_decode AuthSample.payload_get_sub
                   AuthSample.truthy "https://issuer.example" None 0 0 0
                   "good" "org_1" _ _ _ _)); reflexivity.
Defined.

Lemma verify_clerk_token_returns_witness :
  exists id cache',
    AuthSample.verify "https://clerk.example/jwks" "https://issuer.example"
                      None 0 0 0 (Some "Bearer  good "%string) (Some "org_1"%string)
    = (Auth.Returns id, cache')
    /\ Auth.org_id _ _ id = "org_1"%string
    /\ AuthSample.truthy (Auth.user_id _ _ id) = true.
Proof.
  do 2 eexists. split; [vm_compute; reflexivity|]. split; [reflexivity|].
  destruct (verify_clerk_token_returns
              string string string AuthSample.get_signing_key_from_jwt
              AuthSample.jwt_decode AuthSample.payload_get_sub AuthSample.truthy
              "https://clerk.example/jwks" "https://issuer.example"
              None _ 0 0 0 (Some "Bearer  good "%string) (Some "org_1"%string) _
              ltac:(vm_compute; reflexivity))
    as (rest & client & key & _ & _ & _ & _ & _ & _ & _ & _ & _ & Ht).
  exact Ht.
Defined.

Lemma lstrip_blank (s : string) : blank s = true -> Auth.lstrip s = EmptyString.
Proof.
  induction s as [|c s IH]; simpl; [reflexivity|].
  intro H. apply andb_true_iff in H. destruct H as (Hc & Hs).
  rewrite Hc. now apply IH.
Qed.

Lemma strip_blank (s : string) : blank s = true -> Auth.strip s = EmptyString.
Proof. intro H. unfold Auth.strip. now rewrite lstrip_blank. Qed.

Section Precedence.

Variables Key Payload Value : Type.
Variable get_signing_key_from_jwt : string -> string -> Auth.lib_result Key.
Variable jwt_decode : string -> Key -> string -> Auth.lib_result Payload.
Variable payload_get_sub : Payload -> option Value.
Variable truthy : Value -> bool.

Let verify :=
  Auth.verify_clerk_token Key Payload Value get_signing_key_from_jwt jwt_decode
                          payload_get_sub truthy.

(** X15.  The order in which a request is refused, each time with the cache
    untouched and the library not consulted: first a missing [Authorization]
    header or one that does not start with "Bearer " (401), whatever else is
    wrong; then a blank token (401), even under a missing issuer; then a
    missing [CLERK_ISSUER] (500), even without [X-Org-Id]; then a missing or
    empty [X-Org-Id] (400). *)
Theorem refusals_in_order (CLERK_JWKS_URL CLERK_ISSUER : string)
        (cache : Auth.TTLCache) (t_in t_set t_get : Q)
        (authorization x_org_id : option string) (rest : string) :
  let answer := verify CLERK_JWKS_URL CLERK_ISSUER cache t_in t_set t_get in
  ((authorization = None
    \/ exists auth, authorization = Some auth
                    /\ String.prefix "Bearer " auth = false) ->
   answer authorization x_org_id
   = (Auth.Raises_HTTPException 401 "Missing Authorization Bearer token", cache))
  /\ (blank rest = true ->
      answer (Some ("Bearer " ++ rest)%string) x_org_id
      = (Auth.Raises_HTTPException 401 "Empty token", cache))
  /\ (Auth.strip rest <> EmptyString -> CLERK_ISSUER = EmptyString ->
      answer (Some ("Bearer " ++ rest)%string) x_org_id
      = (Auth.Raises_HTTPException 500 "Server misconfigured: CLERK_ISSUER missing",
         cache))
  /\ (Auth.strip rest <> EmptyString -> CLERK_ISSUER <> EmptyString ->
      x_org_id = None \/ x_org_id = Some EmptyString ->
      answer (Some ("Bearer " ++ rest)%string) x_org_id
      = (Auth.Raises_HTTPException
           400 "Missing X-Org-Id header (select a Company/Organization)", cache)).
Proof.
  intro answer. unfold answer, verify, Auth.verify_clerk_token.
  destruct (bearer_prefix rest) as (Hp & He).
  destruct (bearer_split _ Hp) as (rest' & Er & Hn).
  assert (rest' = rest) by (cbn in Er; now inversion Er). subst rest'.
  assert (Hne : forall s, s <> EmptyString -> Auth.is_empty s = false).
  { intros s Hs. destruct (Auth.is_empty s) eqn:E; [|reflexivity].
    apply is_empty_true in E. contradiction. }
  split; [|split; [|split]].
  - intros [-> | (auth & -> & Hpre)]; [reflexivity|].
    rewrite Hpre. now rewrite orb_true_r.
  - intro Hb. rewrite Hp, He, Hn. cbn [orb negb]. cbv zeta.
    now rewrite (strip_blank rest Hb).
  - intros Ht ->. rewrite Hp, He, Hn. cbn [orb negb]. cbv zeta.
    now rewrite (Hne _ Ht).
  - intros Ht Hi Ho. rewrite Hp, He, Hn. cbn [orb negb]. cbv zeta.
    rewrite (Hne _ Ht), (Hne _ Hi). destruct Ho as [-> | ->]; reflexivity.
Qed.

End Precedence.

Lemma refusals_in_order_witness :
  AuthSample.verify "" "" None 0 0 0 (Some "Bearer    "%string) None
  = (Auth.Raises_HTTPException 401 "Empty token", None)
  /\ AuthSample.verify "" "" None 0 0 0 (Some "Bearer good"%string) None
     = (Auth.Raises_HTTPException 500 "Server misconfigured: CLERK_ISSUER missing",
        None).
Proof.
  split.
  - refine (proj1 (proj2 (refusals_in_order
                            string string string AuthSample.get_signing_key_from_jwt
                            AuthSample.jwt_decode AuthSample.payload_get_sub
                            AuthSample.truthy "" "" None 0 0 0 None None "   ")) _).
    reflexivity.
  - refine (proj1 (proj2 (proj2 (refusals_in_order
                            string string string AuthSample.get_signing_key_from_jwt
                            AuthSample.jwt_decode AuthSample.payload_get_sub
                            AuthSample.truthy "" "" None 0 0 0 None None "good")))
                  _ _).
    + discriminate.
    + reflexivity.
Defined.

(** ** The cached JWKS client *)

Lemma Qltb_Qred (t e : Q) : Float.Qltb t (Qred e) = Float.Qltb t e.
Proof.
  apply eq_true_iff_eq. rewrite !Qltb_true. now rewrite Qred_correct.
Qed.

(** X16.  The life of the cached client.  With [CLERK_JWKS_URL] set and no
    live entry in the cache, [_get_jwks_client] builds the client and stores
    it to expire 3600 seconds after the timer reading of the store.  Until
    then every call returns that client and leaves the cache as it is, so use
    does not extend its life; a call that starts at or after the expiry
    builds a new client, with a new expiry. *)
Theorem jwks_client_lifetime (CLERK_JWKS_URL : string) (cache : Auth.TTLCache)
        (a_in a_set a_get b_in b_set b_get : Q) :
  CLERK_JWKS_URL <> EmptyString ->
  Auth.contains cache a_in = false ->
  (a_get < a_set + 3600)%Q ->
  exists expires,
    (expires == a_set + 3600)%Q
    /\ Auth._get_jwks_client CLERK_JWKS_URL cache a_in a_set a_get
       = (inl CLERK_JWKS_URL, Some (CLERK_JWKS_URL, expires))
    /\ ((b_in < expires)%Q -> (b_get < expires)%Q ->
        Auth._get_jwks_client CLERK_JWKS_URL (Some (CLERK_JWKS_URL, expires))
                              b_in b_set b_get
        = (inl CLERK_JWKS_URL, Some (CLERK_JWKS_URL, expires)))
    /\ ((expires <= b_in)%Q -> (b_get < b_set + 3600)%Q ->
        exists expires',
          (expires' == b_set + 3600)%Q
          /\ Auth._get_jwks_client CLERK_JWKS_URL (Some (CLERK_JWKS_URL, expires))
                                   b_in b_set b_get
             = (inl CLERK_JWKS_URL, Some (CLERK_JWKS_URL, expires'))).
Proof.
  intros Hurl Hc Ha.
  assert (He : Auth.is_empty CLERK_JWKS_URL = false).
  { destruct (Auth.is_empty CLERK_JWKS_URL) eqn:E; [|reflexivity].
    apply is_empty_true in E. contradiction. }
  assert (Hbuild : forall c t_in t_set t_get,
             Auth.contains c t_in = false -> (t_get < t_set + 3600)%Q ->
             Auth._get_jwks_client CLERK_JWKS_URL c t_in t_set t_get
             = (inl CLERK_JWKS_URL,
                Some (CLERK_JWKS_URL, Qred (t_set + Auth.ttl)))).
  { intros c t1 t2 t3 H1 H3. unfold Auth._get_jwks_client.
    rewrite H1, He. cbn [negb]. unfold Auth.setitem, Auth.getitem.
    rewrite Qltb_Qred. apply Qltb_true in H3. unfold Auth.ttl. now rewrite H3. }
  exists (Qred (a_set + Auth.ttl)).
  split; [rewrite Qred_correct; reflexivity|].
  split; [now apply Hbuild|]. split.
  - intros H1 H3. unfold Auth._get_jwks_client, Auth.contains, Auth.getitem.
    apply Qltb_true in H1, H3. now rewrite H1, H3.
  - intros H1 H3. exists (Qred (b_set + Auth.ttl)).
    split; [rewrite Qred_correct; reflexivity|].
    apply Hbuild; [|exact H3]. unfold Auth.contains. now apply Qltb_false.
Qed.

Lemma jwks_client_lifetime_witness :
  exists expires,
    (expires == 3600)%Q
    /\ Auth._get_jwks_client "https://clerk.example/jwks" None 0 0 0
       = (inl "https://clerk.example/jwks"%string,
          Some ("https://clerk.example/jwks"%string, expires))
    /\ Auth._get_jwks_client "https://clerk.example/jwks"
                             (Some ("https://clerk.example/jwks"%string, expires))
                             3599 3599 3599
       = (inl "https://clerk.example/jwks"%string,
          Some ("https://clerk.example/jwks"%string, expires)).
Proof.
  destruct (jwks_client_lifetime "https://clerk.example/jwks" None 0 0 0
                                 3599 3599 3599)
    as (expires & He & H1 & H2 & _); [discriminate | reflexivity | reflexivity |].
  exists expires. split; [rewrite He; reflexivity|]. split; [exact H1|].
  apply H2; rewrite He; reflexivity.
Defined.

(** ** What the horizon changes *)

(** The recommendation of a SKU is the loop body run on the rows of that
    SKU. *)
Lemma recommendation_of_group env df h recs rec :
  Main.compute_recommendations env df h = Ok recs ->
  In rec recs ->
  Main.loop_body (Main.clock_today env) (columns df) h (sku rec)
                 (filter (Pandas.SKU_is (sku rec)) (Pandas.dropna_Date (rows df)))
  = Ok rec.
Proof.
  intros H Hin.
  destruct (compute_recommendations_In _ _ _ _ _ H Hin) as (k & g & Hg & Hb).
  assert (Hk : sku rec = k).
  { apply loop_body_Ok in Hb. now destruct Hb as (_ & _ & Hk & _). }
  apply groupby_SKU_In in Hg. now rewrite Hk, <- Hg.
Qed.

Lemma status_without_horizon (g : list (Row Z)) (h h' lead : Z)
      (avg f f' q q' dus : pyfloat) :
  fst (Main.status_and_reason g h lead avg f q dus)
  = fst (Main.status_and_reason g h' lead avg f' q' dus).
Proof.
  unfold Main.status_and_reason. destruct (Float.eqb avg (Finite 0)); reflexivity.
Qed.

(** X17.  The horizon bears on the forecast, the quantity and the reason
    only: run on the same table on the same day with two horizons, the
    recommendations of one SKU agree on status, reorder date, stock, average
    daily sales, lead time, MOQ and unit cost. *)
Theorem horizon_leaves_status_and_date (env : Main.Process) (df : DataFrame)
        (h1 h2 : Z) (recs1 recs2 : list Recommendation)
        (rec1 rec2 : Recommendation) :
  Main.compute_recommendations env df h1 = Ok recs1 ->
  Main.compute_recommendations env df h2 = Ok recs2 ->
  In rec1 recs1 -> In rec2 recs2 ->
  sku rec1 = sku rec2 ->
  status rec1 = status rec2
  /\ reorder_by rec1 = reorder_by rec2
  /\ current_stock rec1 = current_stock rec2
  /\ avg_daily_sales rec1 = avg_daily_sales rec2
  /\ lead_time_days rec1 = lead_time_days rec2
  /\ moq rec1 = moq rec2
  /\ unit_cost rec1 = unit_cost rec2.
Proof.
  intros H1 H2 Hin1 Hin2 Hsku.
  apply (recommendation_of_group _ _ _ _ _ H1) in Hin1.
  apply (recommendation_of_group _ _ _ _ _ H2) in Hin2.
  rewrite <- Hsku in Hin2.
  apply loop_body_Ok in Hin1, Hin2.
  destruct Hin1 as (last & Hl & _ & Hs1 & Hd1 & Hm1 & Hc1 & Ha1 & _ & _ & Hr1 & Hst1).
  destruct Hin2 as (last' & Hl' & _ & Hs2 & Hd2 & Hm2 & Hc2 & Ha2 & _ & _ & Hr2 & Hst2).
  rewrite Hl in Hl'. inversion Hl'; subst last'.
  assert (Es : current_stock rec1 = current_stock rec2) by congruence.
  assert (Ed : lead_time_days rec1 = lead_time_days rec2) by congruence.
  assert (Ea : avg_daily_sales rec1 = avg_daily_sales rec2) by congruence.
  rewrite <- Es, <- Ed, <- Ea in Hr2, Hst2.
  repeat split; try congruence.
  apply (f_equal fst) in Hst1, Hst2. cbn [fst] in Hst1, Hst2.
  rewrite Hst1, Hst2. apply status_without_horizon.
Qed.

Lemma horizon_leaves_status_and_date_witness :
  exists r1 r2,
    Main.compute_recommendations Sample.env (Sample.stock 12) 30 = Ok [r1]
    /\ Main.compute_recommendations Sample.env (Sample.stock 12) 90 = Ok [r2]
    /\ status r1 = status r2 /\ reorder_by r1 = reorder_by r2.
Proof.
  assert (H : exists r1 r2,
             Main.compute_recommendations Sample.env (Sample.stock 12) 30 = Ok [r1]
             /\ Main.compute_recommendations Sample.env (Sample.stock 12) 90 = Ok [r2]
             /\ sku r1 = sku r2).
  { do 2 eexists. split; [vm_compute; reflexivity|].
    split; [vm_compute; reflexivity | reflexivity]. }
  destruct H as (r1 & r2 & H1 & H2 & Hs). exists r1, r2.
  split; [exact H1|]. split; [exact H2|].
  destruct (horizon_leaves_status_and_date
              Sample.env (Sample.stock 12) 30 90 [r1] [r2] r1 r2 H1 H2
              (or_introl eq_refl) (or_introl eq_refl) Hs) as (Hst & Hrb & _).
  split; assumption.
Defined.

Lemma Float_max0_mono (x y : pyfloat) :
  Float.le x y = true ->
  Float.le (Float.max (Finite 0) x) (Float.max (Finite 0) y) = true.
Proof.
  destruct x as [| |a|], y as [| |b|]; try discriminate; try reflexivity;
    unfold Float.max; cbn [Float.lt Float.le].
  - intros _. destruct (Float.Qltb 0 b) eqn:E; [|reflexivity].
    apply Qltb_true in E. apply Qle_bool_iff. now apply Qlt_le_weak.
  - intro H. apply Qle_bool_iff in H.
    destruct (Float.Qltb 0 a) eqn:Ea, (Float.Qltb 0 b) eqn:Eb; cbn [Float.le];
      apply Qle_bool_iff.
    + exact H.
    + apply Qltb_true in Ea. apply Qltb_false in Eb.
      exfalso. apply (Qlt_irrefl 0). eapply Qlt_le_trans; [exact Ea|].
      eapply Qle_trans; eauto.
    + apply Qltb_true in Eb. now apply Qlt_le_weak.
    + apply Qle_refl.
  - intros _. destruct (Float.Qltb 0 a); reflexivity.
Qed.

Lemma ceil_to_moq_mono (q1 q2 : pyfloat) (m : option Z) (r1 r2 : pyfloat) :
  Float.le q1 q2 = true ->
  Main._ceil_to_moq q1 m = Ok r1 ->
  Main._ceil_to_moq q2 m = Ok r2 ->
  Float.le r1 r2 = true.
Proof.
  intros Hle H1 H2.
  assert (Hmax : Main._ceil_to_moq q1 m = Ok (Float.max (Finite 0) q1) ->
                 Main._ceil_to_moq q2 m = Ok (Float.max (Finite 0) q2) ->
                 Float.le r1 r2 = true).
  { intros E1 E2. rewrite E1 in H1. rewrite E2 in H2.
    inversion H1; inversion H2; subst. now apply Float_max0_mono. }
  destruct m as [m|]; [|now apply Hmax].
  destruct (Z.leb_spec m 0) as [Hm|Hm].
  { apply Hmax; unfold Main._ceil_to_moq;
      (destruct (Z.leb_spec m 0); [reflexivity | lia]). }
  clear Hmax.
  assert (H0 := ceil_to_moq_nonneg _ _ _ H2).
  unfold Main._ceil_to_moq in H1, H2.
  destruct (Z.leb_spec m 0) as [Hm'|_]; [lia|].
  destruct (Float.le q1 (Finite 0)) eqn:E1.
  { inversion H1; subst. exact H0. }
  destruct (Float.le q2 (Finite 0)) eqn:E2.
  { exfalso. rewrite (Float_le_trans _ _ _ Hle E2) in E1. discriminate. }
  assert (HM0 : Qeq_bool (inject_Z m) 0 = false).
  { destruct (Qeq_bool (inject_Z m) 0) eqn:E; [|reflexivity].
    apply Qeq_bool_iff in E. unfold Qeq in E. simpl in E. lia. }
  destruct q1 as [| |a|], q2 as [| |b|]; try discriminate Hle;
    unfold Float.of_int at 1 in H1; unfold Float.of_int at 1 in H2;
    cbn [Float.div Float.sign Float.sign_mul] in H1, H2;
    try (destruct (Qcompare (inject_Z m) 0); discriminate).
  rewrite HM0 in H1, H2. cbn [Float.ceil bind] in H1, H2.
  inversion H1; inversion H2; subst. cbn [Float.le Float.of_int] in *.
  apply Qle_bool_iff in Hle. apply Qle_bool_iff. rewrite <- Zle_Qle.
  destruct (ceiling_multiple a m Hm) as (_ & Hleast).
  destruct (ceiling_multiple b m Hm) as (Hge & _).
  apply Hleast. eapply Qle_trans; eauto.
Qed.

Lemma Qcompare_inject_Z_0 (n : Z) : Qcompare (inject_Z n) 0 = (n ?= 0).
Proof. unfold Qcompare. simpl. now rewrite Z.mul_1_r. Qed.

(** [max(0.0, avg_daily * n - on_hand)] does not decrease with [n] when the
    average is not negative. *)
Lemma shortfall_mono (avg on_hand : pyfloat) (n1 n2 : Z) :
  Float.le (Finite 0) avg = true -> n1 <= n2 ->
  Float.le
    (Float.max (Finite 0) (Float.sub (Float.mul avg (Float.of_int n1)) on_hand))
    (Float.max (Finite 0) (Float.sub (Float.mul avg (Float.of_int n2)) on_hand))
  = true.
Proof.
  intros Ha Hn. destruct avg as [| |a|]; try discriminate Ha.
  - cbn [Float.le] in Ha. apply Qle_bool_iff in Ha.
    destruct on_hand as [| |o|]; try reflexivity.
    apply Float_max0_mono.
    cbn [Float.mul Float.of_int Float.sub Float.neg Float.add Float.le].
    apply Qle_bool_iff. rewrite !Qred_correct.
    assert (H : (inject_Z n1 <= inject_Z n2)%Q) by now rewrite <- Zle_Qle.
    apply Qplus_le_compat; [|apply Qle_refl].
    rewrite !(Qmult_comm a). now apply Qmult_le_compat_r.
  - unfold Float.of_int. cbn [Float.mul Float.sign].
    rewrite !Qcompare_inject_Z_0.
    destruct (Z.compare_spec n1 0), (Z.compare_spec n2 0); try lia;
      destruct on_hand; reflexivity.
Qed.

(** X18.  A longer horizon never recommends less: for a SKU whose average
    daily sales are not negative, the quantity recommended under the longer
    of two horizons, on the same table and the same day, is at least the
    quantity recommended under the shorter, MOQ rounding included. *)
Theorem longer_horizon_orders_no_less (env : Main.Process) (df : DataFrame)
        (h1 h2 : Z) (recs1 recs2 : list Recommendation)
        (rec1 rec2 : Recommendation) :
  Main.compute_recommendations env df h1 = Ok recs1 ->
  Main.compute_recommendations env df h2 = Ok recs2 ->
  In rec1 recs1 -> In rec2 recs2 ->
  sku rec1 = sku rec2 ->
  h1 <= h2 ->
  Float.le (Finite 0) (avg_daily_sales rec1) = true ->
  Float.le (reorder_qty rec1) (reorder_qty rec2) = true.
Proof.
  intros H1 H2 Hin1 Hin2 Hsku Hh Havg.
  apply (recommendation_of_group _ _ _ _ _ H1) in Hin1.
  apply (recommendation_of_group _ _ _ _ _ H2) in Hin2.
  rewrite <- Hsku in Hin2.
  apply loop_body_Ok in Hin1, Hin2.
  destruct Hin1 as (last & Hl & _ & Hs1 & Hd1 & Hm1 & _ & Ha1 & _ & Hq1 & _).
  destruct Hin2 as (last' & Hl' & _ & Hs2 & Hd2 & Hm2 & _ & Ha2 & _ & Hq2 & _).
  rewrite Hl in Hl'. inversion Hl'; subst last'.
  assert (Es : current_stock rec2 = current_stock rec1) by congruence.
  assert (Ed : lead_time_days rec2 = lead_time_days rec1) by congruence.
  assert (Ea : avg_daily_sales rec2 = avg_daily_sales rec1) by congruence.
  assert (Em : moq rec2 = moq rec1) by congruence.
  rewrite Es, Ed, Ea, Em in Hq2.
  refine (ceil_to_moq_mono _ _ _ _ _ _ Hq1 Hq2).
  apply shortfall_mono; [exact Havg | lia].
Qed.

Lemma longer_horizon_orders_no_less_witness :
  exists r1 r2,
    Main.compute_recommendations Sample.env (Sample.stock 12) 30 = Ok [r1]
    /\ Main.compute_recommendations Sample.env (Sample.stock 12) 90 = Ok [r2]
    /\ Float.le (reorder_qty r1) (reorder_qty r2) = true.
Proof.
  assert (H : exists r1 r2,
             Main.compute_recommendations Sample.env (Sample.stock 12) 30 = Ok [r1]
             /\ Main.compute_recommendations Sample.env (Sample.stock 12) 90 = Ok [r2]
             /\ sku r1 = sku r2
             /\ Float.le (Finite 0) (avg_daily_sales r1) = true).
  { do 2 eexists. split; [vm_compute; reflexivity|].
    split; [vm_compute; reflexivity|]. split; reflexivity. }
  destruct H as (r1 & r2 & H1 & H2 & Hs & Ha). exists r1, r2.
  split; [exact H1|]. split; [exact H2|].
  exact (longer_horizon_orders_no_less
           Sample.env (Sample.stock 12) 30 90 [r1] [r2] r1 r2 H1 H2
           (or_introl eq_refl) (or_introl eq_refl) Hs ltac:(lia) Ha).
Defined.

(** ** The trend sentence *)




